(** * The sync store of the travel map server (server-sqlite.js)

    The server keeps one SQLite table, [users], keyed by a sanitised user
    identifier, and serves it through three handlers:
    [GET /api/sync/:userId], [POST /api/sync/:userId] and
    [GET /api/admin/stats].  The handlers are embedded below as functions
    from the table (and what the environment decides for one request: the
    clock reading, whether the driver throws) to the reply, the table
    afterwards and the console output.

    What the handlers call but the repository does not contain -- the
    engine's case tables for [String.prototype.toLowerCase] above ASCII,
    [JSON.stringify] and [JSON.parse] -- is a parameter of the development
    ([Section Server]); [Module Ref] gives one instance of it, used to run
    the handlers on concrete requests.  The rate limiters and the body
    parser run before a handler and are not part of it. *)

From Stdlib Require Import ZArith NArith List String Ascii Bool Lia SpecFloat.
From stdpp Require Import base option list gmap.

Set Warnings "-register-all,-clear-no-such-hyp".
Open Scope Z_scope.

(** ** JavaScript strings: sequences of UTF-16 code units *)

Abbreviation text := (list N).

Module Text.

(** A literal of the source, all of whose characters are ASCII. *)
Definition lit (s : string) : text := List.map N_of_ascii (list_ascii_of_string s).

(** [s ? ... : ...] on a string: the empty string is falsy. *)
Definition truthy (s : text) : bool :=
  match s with [] => false | _ :: _ => true end.

(** A code unit is 16 bits wide. *)
Definition wf (s : text) : bool := forallb (fun c => (c <? 65536)%N) s.

(** What [toLowerCase] does to an ASCII code unit: [A-Z] moves to [a-z],
    every other one stays. *)
Definition asciiLower (c : N) : N :=
  if ((65 <=? c) && (c <=? 90))%N then (c + 32)%N else c.

(** The character class of [/[^a-z0-9_-]/g], un-negated. *)
Definition idChar (c : N) : bool :=
  ((97 <=? c) && (c <=? 122) || (48 <=? c) && (c <=? 57)
   || (c =? 95) || (c =? 45))%N.

(** [s.replace(/[^a-z0-9_-]/g, '')]: without the [u] flag the pattern is
    matched against single code units. *)
Definition strip (s : text) : text := List.filter idChar s.

End Text.

(** ** JSON values, as the body parser hands them to a handler *)

Inductive json : Type :=
| JNull
| JBool (b : bool)
| JNum (x : spec_float)
| JStr (s : text)
| JArr (items : list json)
| JObj (props : list (text * json)).

(** Induction on a value with the hypothesis for every item of an array and
    every property of an object. *)
Section JsonInduction.

Variable P : json -> Prop.
Hypothesis PNull : P JNull.
Hypothesis PBool : forall b, P (JBool b).
Hypothesis PNum : forall x, P (JNum x).
Hypothesis PStr : forall s, P (JStr s).
Hypothesis PArr : forall items, Forall P items -> P (JArr items).
Hypothesis PObj : forall props, Forall (fun kv => P (snd kv)) props -> P (JObj props).

Fixpoint json_nested_ind (v : json) : P v :=
  match v with
  | JNull => PNull
  | JBool b => PBool b
  | JNum x => PNum x
  | JStr s => PStr s
  | JArr items =>
      PArr items
        ((fix all (l : list json) : Forall P l :=
            match l with
            | [] => List.Forall_nil P
            | x :: l => List.Forall_cons P x l (json_nested_ind x) (all l)
            end) items)
  | JObj props =>
      PObj props
        ((fix all (l : list (text * json)) : Forall (fun kv => P (snd kv)) l :=
            match l with
            | [] => List.Forall_nil _
            | kv :: l => List.Forall_cons _ kv l (json_nested_ind (snd kv)) (all l)
            end) props)
  end.

End JsonInduction.

Module Json.

(** [v ? ... : ...]: [null], [false], both zeros, [NaN] and the empty string
    are falsy; every object and array is truthy. *)
Definition truthy (v : json) : bool :=
  match v with
  | JNull => false
  | JBool b => b
  | JNum (S754_zero _) | JNum S754_nan => false
  | JNum _ => true
  | JStr s => Text.truthy s
  | JArr _ | JObj _ => true
  end.

(** [o.k] for a parsed body: an own property of an object, [undefined]
    ([None]) otherwise; neither [Object.prototype] nor [Array.prototype] has a
    property named [paris] or [london]. *)
Definition getProp (o : json) (k : text) : option json :=
  match o with
  | JObj props => snd <$> List.find (fun kv => bool_decide (fst kv = k)) props
  | _ => None
  end.

(** The array index a property key denotes, if it does: a decimal numeral
    without a leading zero, at most [2^32 - 2]. *)
Definition arrayIndex (k : text) : option N :=
  match k with
  | [] => None
  | c :: rest =>
      if forallb (fun d => (48 <=? d) && (d <=? 57))%N k
         && (negb (c =? 48)%N || negb (Text.truthy rest))
      then
        let n := fold_left (fun acc d => 10 * acc + (d - 48))%N k 0%N in
        if (n <=? 4294967294)%N then Some n else None
      else None
  end.

(** The order in which an object enumerates its keys: array indices first,
    ascending, then the other keys as they were inserted. *)
Fixpoint keyOrder (keys : list text) : bool :=
  match keys with
  | k1 :: ((k2 :: _) as rest) =>
      match arrayIndex k1, arrayIndex k2 with
      | Some i, Some j => (i <? j)%N
      | None, Some _ => false
      | _, _ => true
      end && keyOrder rest
  | _ => true
  end.

(** A value of the engine: numbers are binary64, strings are made of code
    units, and [props] lists the properties of an object as the object
    enumerates them, each key once. *)
Fixpoint wf (v : json) : bool :=
  match v with
  | JNull | JBool _ => true
  | JNum x => valid_binary 53 1024 x
  | JStr s => Text.wf s
  | JArr items => forallb wf items
  | JObj props =>
      bool_decide (NoDup (List.map fst props))
      && keyOrder (List.map fst props)
      && forallb (fun kv => Text.wf (fst kv) && wf (snd kv)) props
  end.

(** What [JSON.parse(JSON.stringify(v))] is for a value [v]: [v] again,
    except that the serialisation writes [-0] as [0] and a number that is
    not finite as [null]. *)
Fixpoint reread (v : json) : json :=
  match v with
  | JNum (S754_zero _) => JNum (S754_zero false)
  | JNum (S754_finite _ _ _) => v
  | JNum _ => JNull
  | JArr items => JArr (List.map reread items)
  | JObj props => JObj (List.map (fun kv => (fst kv, reread (snd kv))) props)
  | JNull | JBool _ | JStr _ => v
  end.

End Json.

(** ** [new Date().toISOString()] *)

Module Clock.

Definition msPerDay : Z := 86400000.

(** Year, month and day of the day number [days] (days since 1970-01-01) in
    the proleptic Gregorian calendar. *)
Definition civil (days : Z) : Z * Z * Z :=
  let z := days + 719468 in
  let era := z / 146097 in
  let doe := z - era * 146097 in
  let yoe := (doe - doe / 1460 + doe / 36524 - doe / 146096) / 365 in
  let doy := doe - (365 * yoe + yoe / 4 - yoe / 100) in
  let mp := (5 * doy + 2) / 153 in
  let d := doy - (153 * mp + 2) / 5 + 1 in
  let m := if mp <? 10 then mp + 3 else mp - 9 in
  let y := yoe + era * 400 + (if m <=? 2 then 1 else 0) in
  (y, m, d).

(** The last [width] decimal digits of [n], most significant first. *)
Fixpoint digits (width : nat) (n : Z) : text :=
  match width with
  | O => []
  | S w => digits w (n / 10) ++ [Z.to_N (48 + n mod 10)]
  end.

Definition year (y : Z) : text :=
  if (0 <=? y) && (y <=? 9999) then digits 4 y
  else (if y <? 0 then Text.lit "-" else Text.lit "+") ++ digits 6 (Z.abs y).

(** [toISOString] of the time value [t], in milliseconds since the epoch. *)
Definition toISOString (t : Z) : text :=
  let '(y, m, d) := civil (t / msPerDay) in
  let ms := t mod msPerDay in
  year y ++ Text.lit "-" ++ digits 2 m ++ Text.lit "-" ++ digits 2 d
  ++ Text.lit "T" ++ digits 2 (ms / 3600000)
  ++ Text.lit ":" ++ digits 2 (ms / 60000 mod 60)
  ++ Text.lit ":" ++ digits 2 (ms / 1000 mod 60)
  ++ Text.lit "." ++ digits 3 (ms mod 1000) ++ Text.lit "Z".

(** The day number of a date of the proleptic Gregorian calendar. *)
Definition daysFromCivil (y m d : Z) : Z :=
  let y' := if m <=? 2 then y - 1 else y in
  let era := y' / 400 in
  let yoe := y' - era * 400 in
  let mp := if 2 <? m then m - 3 else m + 9 in
  let doy := (153 * mp + 2) / 5 + d - 1 in
  let doe := yoe * 365 + yoe / 4 - yoe / 100 + doy in
  era * 146097 + doe - 719468.

(** Reads [width] decimal digits onto [acc]. *)
Fixpoint readField (width : nat) (acc : Z) (s : text) : option (Z * text) :=
  match width with
  | O => Some (acc, s)
  | S width =>
      match s with
      | c :: rest =>
          if ((48 <=? c) && (c <=? 57))%N
          then readField width (10 * acc + (Z.of_N c - 48)) rest
          else None
      | [] => None
      end
  end.

Definition expect (c : N) (s : text) : option text :=
  match s with
  | c' :: rest => if (c =? c')%N then Some rest else None
  | [] => None
  end.

Definition readYear (s : text) : option (Z * text) :=
  match s with
  | c :: rest =>
      if (c =? 43)%N then readField 6 0 rest
      else if (c =? 45)%N then '(y, r) ← readField 6 0 rest; Some (- y, r)
      else readField 4 0 s
  | [] => None
  end.

(** The time value that a string in the format of [toISOString] denotes
    ([Date.parse] on that format). *)
Definition instant (s : text) : option Z :=
  '(y, s) ← readYear s;
  s ← expect 45 s; '(m, s) ← readField 2 0 s;
  s ← expect 45 s; '(d, s) ← readField 2 0 s;
  s ← expect 84 s; '(hh, s) ← readField 2 0 s;
  s ← expect 58 s; '(mm, s) ← readField 2 0 s;
  s ← expect 58 s; '(ss, s) ← readField 2 0 s;
  s ← expect 46 s; '(ms, s) ← readField 3 0 s;
  s ← expect 90 s;
  match s with
  | [] => Some (daysFromCivil y m d * msPerDay
                + hh * 3600000 + mm * 60000 + ss * 1000 + ms)
  | _ :: _ => None
  end.

(** The time values of a [Date]: at most 8.64e15 milliseconds from the
    epoch. *)
Definition isTimeValue (t : Z) : Prop :=
  -8640000000000000 <= t <= 8640000000000000.

End Clock.

(** ** The table [users] and what a handler produces *)

(** One row; [user_id], the primary key, is the key of the map below.  Each
    column is [TEXT] and may hold [NULL] ([None]). *)
Record row : Type := Row {
  paris_data : option text;
  london_data : option text;
  updated_at : option text
}.

(** What a [try] block of a handler can catch. *)
Inductive exn : Type :=
| DriverError (message : text)      (* thrown by [db.prepare], [.get] or [.run] *)
| SyntaxError (message : text).     (* thrown by [JSON.parse] *)

(** [e.message]. *)
Definition message (e : exn) : text :=
  match e with DriverError m | SyntaxError m => m end.

(** What [JSON.parse] does with a text: it returns a value or throws a
    [SyntaxError]. *)
Inductive parsed : Type :=
| Value (v : json)
| Unexpected (message : text).

Inductive attempt (A : Type) : Type :=
| Done (a : A)
| Raised (e : exn).
Arguments Done {A} a.
Arguments Raised {A} e.

#[export] Instance attempt_ret : MRet attempt := fun A a => Done a.
#[export] Instance attempt_bind : MBind attempt := fun A B f m =>
  match m with Done a => f a | Raised e => Raised e end.

(** The [data] object of a successful read. *)
Record userData : Type := UserData {
  paris : json;
  london : json;
  updatedAt : option text           (* [row.updated_at]; [null] is [None] *)
}.

(** The JSON bodies the handlers send. *)
Inductive payload : Type :=
| ErrorBody (error : text)               (* [{ error }] *)
| SyncData (data : option userData)      (* [{ success: true, data }] *)
| Saved (updatedAt : text)               (* [{ success: true, updatedAt }] *)
| Stats (userCount : nat).               (* [{ userCount }] *)

Record reply : Type := Reply { status : nat; body : payload }.

Inductive logEntry : Type :=
| ConsoleError (label : text) (e : exn)
| ConsoleLog (message : text).

Record outcome : Type := Outcome {
  response : reply;
  store : gmap text row;
  console : list logEntry
}.

(** One statement against the table.  [fault] is what the driver throws on
    this request, if it throws; a statement that throws changes nothing. *)
Definition selectUser (fault : option text) (db : gmap text row) (userId : text)
  : attempt (option row) :=
  match fault with
  | Some message => Raised (DriverError message)
  | None => Done (db !! userId)
  end.

(** [INSERT ... ON CONFLICT(user_id) DO UPDATE SET] all three columns. *)
Definition upsertUser (fault : option text) (db : gmap text row) (userId : text)
  (r : row) : attempt (gmap text row) :=
  match fault with
  | Some message => Raised (DriverError message)
  | None => Done (<[userId := r]> db)
  end.

(** [SELECT COUNT( * ) as count FROM users]. *)
Definition countUsers (fault : option text) (db : gmap text row) : attempt nat :=
  match fault with
  | Some message => Raised (DriverError message)
  | None => Done (size db)
  end.

(** ** A reference engine

    One instance of what the handlers take from the engine.  Its serialiser
    writes compact JSON; a finite number is written with its exact decimal
    expansion (the engines write the shortest literal that reads back to the
    same number, a different text for the same value), and the parser reads
    the literals that denote a binary64 value exactly. *)

Module Ref.

Open Scope N_scope.

(** Capital I with dot above and the Kelvin sign are the two characters
    above ASCII whose lower case contains an ASCII letter; the table leaves
    every other code unit in place. *)
Definition unicodeLower (before : text) (c : N) (after : text) : text :=
  if c =? 304 then [105; 775] else if c =? 8490 then [107] else [c].

Definition isDigit (c : N) : bool := (48 <=? c) && (c <=? 57).

Fixpoint digitsFuel (fuel : nat) (n : N) : text :=
  match fuel with
  | O => []
  | S fuel =>
      if n <? 10 then [48 + n]
      else digitsFuel fuel (n / 10) ++ [48 + n mod 10]
  end.

(** The decimal numeral of [n]. *)
Definition decimal (n : N) : text := digitsFuel (S (N.to_nat (N.log2 n))) n.

(** Reads the digits at the head of [s] onto [acc]. *)
Fixpoint readDigits (acc : N) (s : text) : N * text :=
  match s with
  | c :: rest =>
      if isDigit c then readDigits (10 * acc + (c - 48)) rest else (acc, s)
  | [] => (acc, [])
  end.

Definition readNumeral (s : text) : option (N * text) :=
  match s with
  | c :: _ => if isDigit c then Some (readDigits 0 s) else None
  | [] => None
  end.

(** A finite number [(-1)^s * m * 2^e] in decimal: an integer when
    [0 <= e], and [m * 5^(-e)] tenths to the power [-e] otherwise. *)
Definition magnitude (m : positive) (e : Z) : text :=
  if (0 <=? e)%Z then decimal (Npos m * 2 ^ Z.to_N e)
  else decimal (Npos m * 5 ^ Z.to_N (- e))
       ++ Text.lit "e-" ++ decimal (Z.to_N (- e)).

Definition number (x : spec_float) : text :=
  match x with
  | S754_zero _ => Text.lit "0"
  | S754_finite s m e => (if s then Text.lit "-" else []) ++ magnitude m e
  | S754_infinity _ | S754_nan => Text.lit "null"
  end.

(** A finite number in the form binary64 stores it, or nothing. *)
Definition binary64 (s : bool) (m : N) (e : Z) : option spec_float :=
  match m with
  | Npos m =>
      if valid_binary 53 1024 (S754_finite s m e) then Some (S754_finite s m e)
      else None
  | N0 => None
  end.

(** The binary64 value of the integer [d], when it is one. *)
Definition ofInteger (s : bool) (d : N) : option spec_float :=
  if d =? 0 then Some (S754_zero s)
  else
    let e := (Z.of_N (N.log2 d) + 1 - 53)%Z in
    if (0 <=? e)%Z
    then if d mod 2 ^ Z.to_N e =? 0 then binary64 s (d / 2 ^ Z.to_N e) e else None
    else binary64 s (d * 2 ^ Z.to_N (- e)) e.

(** The binary64 value of [d * 10^(-k)], when [d / 5^k] is its mantissa. *)
Definition ofTenths (s : bool) (d k : N) : option spec_float :=
  if d mod 5 ^ k =? 0 then binary64 s (d / 5 ^ k) (- Z.of_N k) else None.

(** The digits of a number literal, after its sign. *)
Definition readMagnitude (neg : bool) (s : text) : option (json * text) :=
  '(d, s2) ← readNumeral s;
  match s2 with
  | c1 :: c2 :: s3 =>
      if (c1 =? 101) && (c2 =? 45) then
        '(k, s4) ← readNumeral s3;
        x ← ofTenths neg d k;
        Some (JNum x, s4)
      else x ← ofInteger neg d; Some (JNum x, s2)
  | _ => x ← ofInteger neg d; Some (JNum x, s2)
  end.

Definition readNumber (s : text) : option (json * text) :=
  match s with
  | c :: rest => if c =? 45 then readMagnitude true rest else readMagnitude false s
  | [] => None
  end.

Definition hex (n : N) : N := if n <? 10 then 48 + n else 87 + n.

Definition unhex (c : N) : option N :=
  if isDigit c then Some (c - 48)
  else if (97 <=? c) && (c <=? 102) then Some (c - 87)
  else None.

Definition isSurrogate (c : N) : bool := (55296 <=? c) && (c <=? 57343).

(** A quotation mark, a reverse solidus, a control character and a
    surrogate are escaped. *)
Definition escape (c : N) : text :=
  if (c =? 34) || (c =? 92) then [92; c]
  else if (c <? 32) || isSurrogate c
  then [92; 117; hex (c / 4096); hex (c / 256 mod 16);
        hex (c / 16 mod 16); hex (c mod 16)]
  else [c].

Definition quote (s : text) : text := [34] ++ flat_map escape s ++ [34].

(** Reads a string after its opening quotation mark. *)
Fixpoint unquote (s : text) : option (text * text) :=
  match s with
  | [] => None
  | c :: r =>
      if c =? 34 then Some ([], r)
      else if c =? 92 then
        match r with
        | e :: r1 =>
            if e =? 117 then
              match r1 with
              | h3 :: h2 :: h1 :: h0 :: r2 =>
                  a ← unhex h3; b ← unhex h2; c ← unhex h1; d ← unhex h0;
                  '(str, rest) ← unquote r2;
                  Some ((4096 * a + 256 * b + 16 * c + d) :: str, rest)
              | _ => None
              end
            else if (e =? 34) || (e =? 92) then
              '(str, rest) ← unquote r1; Some (e :: str, rest)
            else None
        | [] => None
        end
      else '(str, rest) ← unquote r; Some (c :: str, rest)
  end.

Fixpoint commas (parts : list text) : text :=
  match parts with
  | [] => []
  | [p] => p
  | p :: rest => p ++ [44] ++ commas rest
  end.

Fixpoint stringify (v : json) : text :=
  match v with
  | JNull => Text.lit "null"
  | JBool b => if b then Text.lit "true" else Text.lit "false"
  | JNum x => number x
  | JStr s => quote s
  | JArr items => [91] ++ commas (List.map stringify items) ++ [93]
  | JObj props =>
      [123]
      ++ commas (List.map (fun kv => quote (fst kv) ++ [58] ++ stringify (snd kv)) props)
      ++ [125]
  end.

(** [Some rest] when [s] is [word] followed by [rest]. *)
Fixpoint eat (word s : text) : option text :=
  match word, s with
  | [], _ => Some s
  | w :: word, c :: s => if w =? c then eat word s else None
  | _ :: _, [] => None
  end.

Fixpoint readValue (fuel : nat) (s : text) : option (json * text) :=
  match fuel with
  | O => None
  | S fuel =>
      match s with
      | [] => None
      | c :: r =>
          if isDigit c || (c =? 45) then readNumber s
          else if c =? 110 then r' ← eat (Text.lit "null") s; Some (JNull, r')
          else if c =? 116 then r' ← eat (Text.lit "true") s; Some (JBool true, r')
          else if c =? 102 then r' ← eat (Text.lit "false") s; Some (JBool false, r')
          else if c =? 34 then '(str, r') ← unquote r; Some (JStr str, r')
          else if c =? 91 then
            match eat [93] r with
            | Some r' => Some (JArr [], r')
            | None => '(items, r') ← readItems fuel r; Some (JArr items, r')
            end
          else if c =? 123 then
            match eat [125] r with
            | Some r' => Some (JObj [], r')
            | None => '(props, r') ← readProps fuel r; Some (JObj props, r')
            end
          else None
      end
  end
with readItems (fuel : nat) (s : text) : option (list json * text) :=
  match fuel with
  | O => None
  | S fuel =>
      '(v, r) ← readValue fuel s;
      match r with
      | c :: r' =>
          if c =? 44 then '(vs, r'') ← readItems fuel r'; Some (v :: vs, r'')
          else if c =? 93 then Some ([v], r')
          else None
      | [] => None
      end
  end
with readProps (fuel : nat) (s : text) : option (list (text * json) * text) :=
  match fuel with
  | O => None
  | S fuel =>
      r0 ← eat [34] s;
      '(k, r1) ← unquote r0;
      r2 ← eat [58] r1;
      '(v, r) ← readValue fuel r2;
      match r with
      | c :: r' =>
          if c =? 44
          then '(kvs, r'') ← readProps fuel r'; Some ((k, v) :: kvs, r'')
          else if c =? 125 then Some ([(k, v)], r')
          else None
      | [] => None
      end
  end.

(** What may follow a value inside a text: nothing, a comma or a closing
    bracket. *)
Definition delimited (rest : text) : bool :=
  match rest with
  | [] => true
  | c :: _ => (c =? 44) || (c =? 93) || (c =? 125)
  end.

Definition headDigit (s : text) : bool :=
  match s with c :: _ => isDigit c | [] => false end.

(** The numbers that are written as a number literal. *)
Definition numeric (x : spec_float) : bool :=
  match x with S754_zero _ | S754_finite _ _ _ => true | _ => false end.

(** The code units a serialisation can start with. *)
Definition opens (c : N) : bool :=
  isDigit c || (c =? 45) || (c =? 110) || (c =? 116) || (c =? 102)
  || (c =? 34) || (c =? 91) || (c =? 123).

(** Fuel that reading the serialisation of [v] takes. *)
Fixpoint cost (v : json) : nat :=
  match v with
  | JArr items => S (list_sum (List.map (fun x => S (cost x)) items))
  | JObj props => S (list_sum (List.map (fun kv => S (cost (snd kv))) props))
  | _ => 1
  end.

Definition JSON_stringify : json -> text := stringify.

Definition JSON_parse (s : text) : parsed :=
  match readValue (S (length s)) s with
  | Some (v, []) => Value v
  | _ => Unexpected (Text.lit "Unexpected token in JSON")
  end.

End Ref.

(** ** The handlers *)

Section Server.

(** The engine's lower-casing of a code unit above ASCII: what it writes for
    the unit [c] standing between [before] and [after] (the Unicode case
    tables; for a surrogate pair or a final sigma the answer depends on the
    neighbours). *)
Variable unicodeLower : text -> N -> text -> text.

(** [JSON.stringify] on a value, and [JSON.parse] on a text. *)
Variable JSON_stringify : json -> text.
Variable JSON_parse : text -> parsed.

Fixpoint lowerFrom (before s : text) : text :=
  match s with
  | [] => []
  | c :: after =>
      (if (c <? 128)%N then [Text.asciiLower c] else unicodeLower before c after)
      ++ lowerFrom (before ++ [c]) after
  end.

(** [s.toLowerCase()]. *)
Definition toLowerCase (s : text) : text := lowerFrom [] s.

(** [req.params.userId.toLowerCase().replace(/[^a-z0-9_-]/g, '')]. *)
Definition normalizeId (raw : text) : text := Text.strip (toLowerCase raw).

(** [!userId || userId.length < 3 || userId.length > 30]. *)
Definition invalidId (userId : text) : bool :=
  negb (Text.truthy userId)
  || (length userId <? 3)%nat || (30 <? length userId)%nat.

Definition invalidReply (db : gmap text row) : outcome :=
  Outcome (Reply 400 (ErrorBody (Text.lit "Invalid user ID"))) db [].

(** [col ? JSON.parse(col) : null]. *)
Definition readColumn (col : option text) : attempt json :=
  match col with
  | Some s =>
      if Text.truthy s
      then match JSON_parse s with
           | Value v => Done v
           | Unexpected m => Raised (SyntaxError m)
           end
      else Done JNull
  | None => Done JNull
  end.

(** [app.get('/api/sync/:userId', ...)]. *)
Definition getSync (fault : option text) (db : gmap text row) (rawId : text)
  : outcome :=
  let userId := normalizeId rawId in
  if invalidId userId then invalidReply db
  else
    match
      r ← selectUser fault db userId;
      match r with
      | Some r =>
          p ← readColumn (paris_data r);
          l ← readColumn (london_data r);
          mret (SyncData (Some (UserData p l (updated_at r))))
      | None => mret (SyncData None)
      end
    with
    | Done b => Outcome (Reply 200 b) db []
    | Raised e =>
        Outcome (Reply 500 (ErrorBody (Text.lit "Database error"))) db
                [ConsoleError (Text.lit "Database read error:") e]
    end.

(** [v ? JSON.stringify(v) : null] for a property [v] of the body. *)
Definition writeColumn (v : option json) : option text :=
  match v with
  | Some v => if Json.truthy v then Some (JSON_stringify v) else None
  | None => None
  end.

(** [app.post('/api/sync/:userId', ...)]; [now] is the time value of
    [new Date()]. *)
Definition postSync (fault : option text) (now : Z) (db : gmap text row)
  (rawId : text) (reqBody : json) : outcome :=
  let userId := normalizeId rawId in
  if invalidId userId then invalidReply db
  else
    let updatedAt := Clock.toISOString now in
    let parisData := writeColumn (Json.getProp reqBody (Text.lit "paris")) in
    let londonData := writeColumn (Json.getProp reqBody (Text.lit "london")) in
    match upsertUser fault db userId (Row parisData londonData (Some updatedAt)) with
    | Done db' =>
        Outcome (Reply 200 (Saved updatedAt)) db'
                [ConsoleLog (Text.lit "Data saved for user: " ++ userId)]
    | Raised e =>
        Outcome (Reply 500 (ErrorBody (Text.lit "Failed to save data"))) db
                [ConsoleError (Text.lit "Database write error:") e]
    end.

(** [app.get('/api/admin/stats', ...)]. *)
Definition getStats (fault : option text) (db : gmap text row) : outcome :=
  match countUsers fault db with
  | Done n => Outcome (Reply 200 (Stats n)) db []
  | Raised e => Outcome (Reply 500 (ErrorBody (message e))) db []
  end.

(** ** Requests in sequence *)

Inductive request : Type :=
| GetSync (rawId : text)
| PostSync (rawId : text) (reqBody : json)
| GetStats.

(** A request as it reaches its handler, with what the environment decides
    for it. *)
Record arrival : Type := Arrival {
  req : request;
  fault : option text;
  clock : Z
}.

Definition handle (db : gmap text row) (a : arrival) : outcome :=
  match req a with
  | GetSync rawId => getSync (fault a) db rawId
  | PostSync rawId reqBody => postSync (fault a) (clock a) db rawId reqBody
  | GetStats => getStats (fault a) db
  end.

(** The table after the requests of [trace], one after the other. *)
Definition serve (db : gmap text row) (trace : list arrival) : gmap text row :=
  fold_left (fun db a => store (handle db a)) trace db.

(** The identifiers, as normalised, of the writes of [trace] that were
    answered with success. *)
Fixpoint accepted (db : gmap text row) (trace : list arrival) : gset text :=
  match trace with
  | [] => ∅
  | a :: rest =>
      (match req a with
       | PostSync rawId _ =>
           if (status (response (handle db a)) =? 200)%nat
           then {[ normalizeId rawId ]} else ∅
       | _ => ∅
       end) ∪ accepted (store (handle db a)) rest
  end.

(** The bodies of a trace are values of the engine. *)
Definition wfArrival (a : arrival) : bool :=
  match req a with
  | PostSync _ reqBody => Json.wf reqBody
  | _ => true
  end.

(** A table that started empty and was written by the handlers only. *)
Definition reachable (db : gmap text row) : Prop :=
  exists trace, forallb wfArrival trace = true /\ db = serve ∅ trace.

(** What a read returns for a property that was written as [v]: a falsy
    or missing property was stored as [NULL], any other as its
    serialisation. *)
Definition readBack (v : option json) : json :=
  match v with
  | Some v => if Json.truthy v then Json.reread v else JNull
  | None => JNull
  end.

(** A missing property read back as [null], any other unchanged. *)
Definition orNull (v : option json) : json := default JNull v.

(** A write, then a read of the same identifier, returns the two
    properties as they were submitted. *)
Definition readsBackSubmitted (db : gmap text row) (rawId : text)
  (reqBody : json) (now : Z) : Prop :=
  exists stamp,
    response (getSync None (store (postSync None now db rawId reqBody)) rawId)
    = Reply 200 (SyncData (Some (UserData
        (orNull (Json.getProp reqBody (Text.lit "paris")))
        (orNull (Json.getProp reqBody (Text.lit "london")))
        stamp))).

(** A column holds [NULL] or the serialisation of a value. *)
Definition serialised (col : option text) : Prop :=
  col = None \/ exists v, Json.wf v = true /\ col = Some (JSON_stringify v).

Definition rowSerialised (r : row) : Prop :=
  serialised (paris_data r) /\ serialised (london_data r).

(** What a request writes when its handler accepts it: the key and the row
    of the upsert of [postSync].  Validation, the driver and the clock decide
    it; the table does not. *)
Definition acceptedWrite (a : arrival) : option (text * row) :=
  match req a, fault a with
  | PostSync rawId reqBody, None =>
      if invalidId (normalizeId rawId) then None
      else Some (normalizeId rawId,
                 Row (writeColumn (Json.getProp reqBody (Text.lit "paris")))
                     (writeColumn (Json.getProp reqBody (Text.lit "london")))
                     (Some (Clock.toISOString (clock a))))
  | _, _ => None
  end.

Definition isAcceptedWrite (a : arrival) : bool :=
  match acceptedWrite a with Some _ => true | None => false end.

(** The row of the last accepted write of [trace] to the key [k]. *)
Fixpoint lastWrite (k : text) (trace : list arrival) : option row :=
  match trace with
  | [] => None
  | a :: rest =>
      match lastWrite k rest with
      | Some r => Some r
      | None =>
          match acceptedWrite a with
          | Some (k', r) => if bool_decide (k' = k) then Some r else None
          | None => None
          end
      end
  end.

(** A raw identifier made of ASCII code units. *)
Definition ascii (s : text) : bool := forallb (fun c => (c <? 128)%N) s.

(** ** Timestamps *)

Ltac Zify.zify_post_hook ::= Z.to_euclidean_division_equations.

Lemma readField_digits w : forall n acc k rest,
  Clock.readField (w + k) acc (Clock.digits w n ++ rest)
  = Clock.readField k (acc * 10 ^ Z.of_nat w + n mod 10 ^ Z.of_nat w) rest.
Proof.
  induction w as [|w IH]; intros n acc k rest.
  - cbn. f_equal. rewrite Z.mod_1_r. lia.
  - cbn [Clock.digits]. rewrite <- app_assoc. cbn [app].
    replace (S w + k)%nat with (w + S k)%nat by lia. rewrite IH.
    cbn [Clock.readField].
    assert (B : 0 <= n mod 10 < 10) by (apply Z.mod_pos_bound; lia).
    replace ((48 <=? Z.to_N (48 + n mod 10)) && (Z.to_N (48 + n mod 10) <=? 57))%N with true
      by (symmetry; rewrite andb_true_iff, !N.leb_le; lia).
    f_equal. rewrite Nat2Z.inj_succ, Z.pow_succ_r by lia.
    rewrite (Z.rem_mul_r n 10 (10 ^ Z.of_nat w)) by lia.
    rewrite Z2N.id by lia. lia.
Qed.

Lemma readField_exact w n rest :
  0 <= n < 10 ^ Z.of_nat w ->
  Clock.readField w 0 (Clock.digits w n ++ rest) = Some (n, rest).
Proof.
  intros B. replace w with (w + 0)%nat at 1 by lia. rewrite readField_digits.
  cbn [Clock.readField]. rewrite Z.mod_small by done. f_equal.
Qed.

Lemma digits_head w n :
  exists c r, Clock.digits (S w) n = c :: r /\ (48 <= c <= 57)%N.
Proof.
  revert n. induction w as [|w IH]; intros n.
  - exists (Z.to_N (48 + n mod 10)), []. split; [reflexivity|].
    assert (0 <= n mod 10 < 10) by (apply Z.mod_pos_bound; lia). lia.
  - destruct (IH (n / 10)) as (c & r & E & B).
    change (Clock.digits (S (S w)) n)
      with (Clock.digits (S w) (n / 10) ++ [Z.to_N (48 + n mod 10)]).
    rewrite E. eexists c, _. split; [reflexivity | exact B].
Qed.

Lemma civil_inverse z :
  let '(y, m, d) := Clock.civil z in
  Clock.daysFromCivil y m d = z /\ 1 <= m <= 12 /\ 1 <= d <= 31
  /\ (z + 719468) / 146097 * 400 <= y <= (z + 719468) / 146097 * 400 + 400.
Proof.
  unfold Clock.civil, Clock.daysFromCivil. cbv zeta.
  set (era := (z + 719468) / 146097).
  set (doe := z + 719468 - era * 146097).
  set (yoe := (doe - doe / 1460 + doe / 36524 - doe / 146096) / 365).
  set (doy := doe - (365 * yoe + yoe / 4 - yoe / 100)).
  set (mp := (5 * doy + 2) / 153).
  assert (Hdoe : 0 <= doe <= 146096) by (subst doe era; lia).
  assert (Hyoe : 0 <= yoe <= 399) by (subst yoe; lia).
  assert (Hdoy : 0 <= doy <= 365) by (subst doy yoe; lia).
  assert (Hmp : 0 <= mp <= 11) by (subst mp; lia).
  destruct (mp <? 10) eqn:E; [apply Z.ltb_lt in E | apply Z.ltb_ge in E].
  - replace (mp + 3 <=? 2) with false by (symmetry; apply Z.leb_gt; lia).
    replace (2 <? mp + 3) with true by (symmetry; apply Z.ltb_lt; lia).
    replace (yoe + era * 400 + 0) with (yoe + era * 400) by lia.
    replace ((yoe + era * 400) / 400) with era by lia.
    replace (yoe + era * 400 - era * 400) with yoe by lia.
    replace (mp + 3 - 3) with mp by lia.
    repeat split; try lia; subst mp doy; lia.
  - replace (mp - 9 <=? 2) with true by (symmetry; apply Z.leb_le; lia).
    replace (2 <? mp - 9) with false by (symmetry; apply Z.ltb_ge; lia).
    replace (yoe + era * 400 + 1 - 1) with (yoe + era * 400) by lia.
    replace ((yoe + era * 400) / 400) with era by lia.
    replace (yoe + era * 400 - era * 400) with yoe by lia.
    replace (mp - 9 + 9) with mp by lia.
    repeat split; try lia; subst mp doy; lia.
Qed.

Lemma readYear_year y rest :
  -1000000 < y < 1000000 ->
  Clock.readYear (Clock.year y ++ rest) = Some (y, rest).
Proof.
  intros B. unfold Clock.year.
  destruct ((0 <=? y) && (y <=? 9999)) eqn:E.
  - apply andb_true_iff in E as [E1 E2]. apply Z.leb_le in E1, E2.
    pose proof (readField_exact 4 y rest ltac:(cbn; lia)) as R.
    destruct (digits_head 3 y) as (c & r & D & C). rewrite D in *.
    cbn [app Clock.readYear].
    replace (c =? 43)%N with false by (symmetry; apply N.eqb_neq; lia).
    replace (c =? 45)%N with false by (symmetry; apply N.eqb_neq; lia).
    exact R.
  - destruct (y <? 0) eqn:S; [apply Z.ltb_lt in S | apply Z.ltb_ge in S].
    + change (Text.lit "-") with [45%N]. cbn [app Clock.readYear N.eqb Pos.eqb].
      rewrite readField_exact by (cbn; lia). cbn. f_equal. f_equal. lia.
    + change (Text.lit "+") with [43%N]. cbn [app Clock.readYear N.eqb Pos.eqb].
      rewrite readField_exact by (cbn; lia). f_equal. f_equal. lia.
Qed.

Lemma instant_toISOString t :
  Clock.isTimeValue t ->
  Clock.instant (Clock.toISOString t) = Some t.
Proof.
  unfold Clock.isTimeValue. intros B. unfold Clock.toISOString, Clock.msPerDay.
  pose proof (civil_inverse (t / 86400000)) as C.
  destruct (Clock.civil (t / 86400000)) as [[y m] d].
  destruct C as (Hd & Hm & Hday & Hy).
  set (ms := t mod 86400000).
  assert (Hms : 0 <= ms < 86400000) by (subst ms; apply Z.mod_pos_bound; lia).
  unfold Clock.instant.
  change (Text.lit "-") with [45%N]. change (Text.lit "T") with [84%N].
  change (Text.lit ":") with [58%N]. change (Text.lit ".") with [46%N].
  change (Text.lit "Z") with [90%N].
  rewrite readYear_year by lia.
  do 6 (cbn [mbind option_bind app Clock.expect N.eqb Pos.eqb];
        rewrite readField_exact by (cbn; lia)).
  cbn [mbind option_bind app Clock.expect N.eqb Pos.eqb].
  f_equal. rewrite Hd. unfold Clock.msPerDay. subst ms. lia.
Qed.

(** ** Identifiers *)

Lemma idChar_ascii c :
  Text.idChar c = true -> (c <? 128)%N = true /\ Text.asciiLower c = c.
Proof.
  unfold Text.idChar, Text.asciiLower. intros H.
  rewrite !orb_true_iff, !andb_true_iff, !N.leb_le, !N.eqb_eq in H.
  split; [apply N.ltb_lt; lia|].
  destruct (65 <=? c)%N eqn:E1, (c <=? 90)%N eqn:E2; cbn [andb];
    try reflexivity.
  apply N.leb_le in E1, E2. lia.
Qed.

Lemma lowerFrom_idChars before s :
  forallb Text.idChar s = true -> lowerFrom before s = s.
Proof.
  revert before. induction s as [|c s IH]; intros before H; [reflexivity|].
  cbn in H. apply andb_true_iff in H as [Hc Hs].
  destruct (idChar_ascii c Hc) as [H1 H2].
  cbn [lowerFrom]. rewrite H1, H2. cbn. f_equal. now apply IH.
Qed.

Lemma strip_idChars s : forallb Text.idChar (Text.strip s) = true.
Proof.
  induction s as [|c s IH]; [reflexivity|]. cbn.
  destruct (Text.idChar c) eqn:E; cbn; [rewrite E|]; exact IH.
Qed.

Lemma strip_fixed s : forallb Text.idChar s = true -> Text.strip s = s.
Proof.
  induction s as [|c s IH]; intros H; [reflexivity|].
  cbn in H. apply andb_true_iff in H as [Hc Hs].
  cbn. rewrite Hc. f_equal. now apply IH.
Qed.

Lemma normalizeId_idChars raw : forallb Text.idChar (normalizeId raw) = true.
Proof. apply strip_idChars. Qed.

Lemma invalidId_length userId :
  invalidId userId = true <-> (length userId < 3 \/ 30 < length userId)%nat.
Proof.
  unfold invalidId. rewrite !orb_true_iff, !Nat.ltb_lt. split.
  - intros [[H|H]|H]; [|now left|now right].
    destruct userId; [left; cbn; lia | discriminate].
  - intros [H|H]; [left; now right | now right].
Qed.

(** C3.  Normalising an identifier twice is normalising it once, for every
    string and whatever the engine's case tables are above ASCII; and
    ["Paris_123!"] normalises to ["paris_123"]. *)
Theorem normalizeId_idempotent :
  (forall s : text, normalizeId (normalizeId s) = normalizeId s)
  /\ normalizeId (Text.lit "Paris_123!") = Text.lit "paris_123".
Proof.
  split; [|reflexivity].
  intros s. unfold normalizeId at 1. unfold toLowerCase.
  rewrite lowerFrom_idChars by apply normalizeId_idChars.
  apply strip_fixed, normalizeId_idChars.
Qed.

(** ** The handlers on a valid and on an invalid identifier *)

Lemma getSync_invalid fault db rawId :
  invalidId (normalizeId rawId) = true -> getSync fault db rawId = invalidReply db.
Proof. intros H. unfold getSync. now rewrite H. Qed.

Lemma postSync_invalid fault now db rawId reqBody :
  invalidId (normalizeId rawId) = true ->
  postSync fault now db rawId reqBody = invalidReply db.
Proof. intros H. unfold postSync. now rewrite H. Qed.

Lemma postSync_saved now db rawId reqBody :
  invalidId (normalizeId rawId) = false ->
  postSync None now db rawId reqBody
  = Outcome (Reply 200 (Saved (Clock.toISOString now)))
      (<[normalizeId rawId :=
           Row (writeColumn (Json.getProp reqBody (Text.lit "paris")))
               (writeColumn (Json.getProp reqBody (Text.lit "london")))
               (Some (Clock.toISOString now))]> db)
      [ConsoleLog (Text.lit "Data saved for user: " ++ normalizeId rawId)].
Proof. intros H. unfold postSync. now rewrite H. Qed.

Lemma postSync_failed message now db rawId reqBody :
  invalidId (normalizeId rawId) = false ->
  postSync (Some message) now db rawId reqBody
  = Outcome (Reply 500 (ErrorBody (Text.lit "Failed to save data"))) db
      [ConsoleError (Text.lit "Database write error:") (DriverError message)].
Proof. intros H. unfold postSync. now rewrite H. Qed.

Lemma getSync_failed message db rawId :
  invalidId (normalizeId rawId) = false ->
  getSync (Some message) db rawId
  = Outcome (Reply 500 (ErrorBody (Text.lit "Database error"))) db
      [ConsoleError (Text.lit "Database read error:") (DriverError message)].
Proof. intros H. unfold getSync. now rewrite H. Qed.

Lemma getSync_absent db rawId :
  invalidId (normalizeId rawId) = false ->
  db !! normalizeId rawId = None ->
  getSync None db rawId = Outcome (Reply 200 (SyncData None)) db [].
Proof. intros H E. unfold getSync. rewrite H. cbn. now rewrite E. Qed.

Lemma getSync_present db rawId r p l :
  invalidId (normalizeId rawId) = false ->
  db !! normalizeId rawId = Some r ->
  readColumn (paris_data r) = Done p ->
  readColumn (london_data r) = Done l ->
  getSync None db rawId
  = Outcome (Reply 200 (SyncData (Some (UserData p l (updated_at r))))) db [].
Proof.
  intros H E Hp Hl. unfold getSync. rewrite H. cbn. rewrite E. cbn.
  now rewrite Hp, Hl.
Qed.

Lemma store_getSync fault db rawId : store (getSync fault db rawId) = db.
Proof.
  unfold getSync. destruct (invalidId _); [reflexivity|].
  destruct (_ ≫= _); reflexivity.
Qed.

Lemma store_getStats fault db : store (getStats fault db) = db.
Proof. unfold getStats. destruct (countUsers _ _); reflexivity. Qed.

(** C2.  An identifier whose normal form is shorter than 3 or longer than
    30 is answered with status 400 by both handlers, whatever the table holds
    and whether or not the driver would throw; the table is handed back as
    it was, so every later read returns what it returned before. *)
Theorem invalid_id_rejected (rawId : text) :
  (length (normalizeId rawId) < 3 \/ 30 < length (normalizeId rawId))%nat ->
  forall (fault : option text) (now : Z) (db : gmap text row) (reqBody : json),
    let refused := Outcome (Reply 400 (ErrorBody (Text.lit "Invalid user ID"))) db [] in
    getSync fault db rawId = refused
    /\ postSync fault now db rawId reqBody = refused
    /\ forall fault' rawId',
         getSync fault' (store (getSync fault db rawId)) rawId'
         = getSync fault' db rawId'
         /\ getSync fault' (store (postSync fault now db rawId reqBody)) rawId'
            = getSync fault' db rawId'.
Proof.
  intros H fault now db reqBody refused. apply invalidId_length in H.
  rewrite (getSync_invalid _ _ _ H), (postSync_invalid _ _ _ _ _ H).
  repeat split.
Qed.

(** C5, on the code: when the driver throws, the two sync handlers answer
    500 with a fixed message, and the stats handler answers 500 with the
    driver's own message. *)
Theorem stats_error_is_driver_message (message : text) (db : gmap text row) :
  response (getStats (Some message) db) = Reply 500 (ErrorBody message)
  /\ forall rawId now reqBody,
       invalidId (normalizeId rawId) = false ->
       response (getSync (Some message) db rawId)
       = Reply 500 (ErrorBody (Text.lit "Database error"))
       /\ response (postSync (Some message) now db rawId reqBody)
          = Reply 500 (ErrorBody (Text.lit "Failed to save data")).
Proof.
  split; [reflexivity|]. intros rawId now reqBody H.
  now rewrite getSync_failed, postSync_failed.
Qed.

(** C7.  The handler reads [paris] and [london] from the body and nothing
    else: two bodies that agree on these two properties give the same
    outcome (reply, table, console).  When the write is accepted the
    timestamp in the reply is the ISO string of the handler's clock
    reading, and it is the value stored in the row. *)
Theorem timestamp_server_side (fault : option text) (now : Z)
  (db : gmap text row) (rawId : text) (body1 body2 : json) :
  Json.getProp body1 (Text.lit "paris") = Json.getProp body2 (Text.lit "paris") ->
  Json.getProp body1 (Text.lit "london") = Json.getProp body2 (Text.lit "london") ->
  postSync fault now db rawId body1 = postSync fault now db rawId body2
  /\ (status (response (postSync fault now db rawId body1)) = 200%nat ->
      response (postSync fault now db rawId body1)
      = Reply 200 (Saved (Clock.toISOString now))
      /\ updated_at <$> (store (postSync fault now db rawId body1) !! normalizeId rawId)
         = Some (Some (Clock.toISOString now))).
Proof.
  intros Hp Hl. split.
  - unfold postSync. now rewrite Hp, Hl.
  - unfold postSync. destruct (invalidId _); [discriminate|].
    destruct fault; cbn; [discriminate|]. intros _.
    split; [reflexivity|]. now rewrite lookup_insert_eq.
Qed.

(** C8.  A write to a valid identifier has two outcomes.  The driver
    accepts it: the reply is success and the table is the old one with the
    row of this identifier replaced in all three columns.  The driver
    throws: the reply is 500 and the table is unchanged. *)
Theorem write_all_or_nothing (fault : option text) (now : Z)
  (db : gmap text row) (rawId : text) (reqBody : json) :
  invalidId (normalizeId rawId) = false ->
  let done := postSync fault now db rawId reqBody in
  (fault = None
   /\ response done = Reply 200 (Saved (Clock.toISOString now))
   /\ store done
      = <[normalizeId rawId :=
            Row (writeColumn (Json.getProp reqBody (Text.lit "paris")))
                (writeColumn (Json.getProp reqBody (Text.lit "london")))
                (Some (Clock.toISOString now))]> db)
  \/ (fault <> None
      /\ status (response done) = 500%nat
      /\ store done = db).
Proof.
  intros H done. subst done. destruct fault as [message|].
  - right. now rewrite postSync_failed.
  - left. now rewrite postSync_saved.
Qed.

(** ** The user count *)

Lemma store_postSync fault now db rawId reqBody :
  status (response (postSync fault now db rawId reqBody)) = 200%nat ->
  exists r, store (postSync fault now db rawId reqBody) = <[normalizeId rawId := r]> db.
Proof.
  unfold postSync. destruct (invalidId _); [discriminate|].
  destruct fault; cbn; [discriminate|]. eauto.
Qed.

Lemma store_postSync_refused fault now db rawId reqBody :
  status (response (postSync fault now db rawId reqBody)) <> 200%nat ->
  store (postSync fault now db rawId reqBody) = db.
Proof.
  unfold postSync. destruct (invalidId _); [reflexivity|].
  destruct fault; cbn; [reflexivity|]. intros H. now destruct H.
Qed.

Lemma dom_serve trace : forall db : gmap text row,
  dom (serve db trace) = dom db ∪ accepted db trace.
Proof.
  induction trace as [|a trace IH]; intros db; cbn [serve fold_left accepted].
  - set_solver.
  - fold (serve (store (handle db a)) trace). rewrite IH.
    unfold handle. destruct (req a) as [rawId|rawId reqBody|].
    + rewrite store_getSync. set_solver.
    + destruct (status _ =? 200)%nat eqn:E.
      * apply Nat.eqb_eq, store_postSync in E as [r ->].
        rewrite dom_insert_L. set_solver.
      * apply Nat.eqb_neq, store_postSync_refused in E as ->. set_solver.
    + rewrite store_getStats. set_solver.
Qed.

Lemma size_handle (db : gmap text row) a : (size db <= size (store (handle db a)))%nat.
Proof.
  unfold handle. destruct (req a) as [rawId|rawId reqBody|].
  - now rewrite store_getSync.
  - destruct (decide (status (response (postSync (fault a) (clock a) db rawId reqBody)) = 200%nat)) as [E|E].
    + apply store_postSync in E as [r ->].
      destruct (db !! normalizeId rawId) eqn:L.
      * erewrite map_size_insert_Some by eauto. lia.
      * rewrite map_size_insert_None by done. lia.
    + now rewrite store_postSync_refused.
  - now rewrite store_getStats.
Qed.

(** C9.  After any sequence of requests on a table that started empty, the
    stats handler reports the number of distinct normalised identifiers
    whose write was answered with success.  No request makes the count
    smaller; an accepted write adds one when the identifier had no row and
    nothing when it had one. *)
Theorem user_count :
  (forall trace,
     response (getStats None (serve ∅ trace))
     = Reply 200 (Stats (size (accepted ∅ trace))))
  /\ (forall (db : gmap text row) a, (size db <= size (store (handle db a)))%nat)
  /\ (forall fault now (db : gmap text row) rawId reqBody,
        status (response (postSync fault now db rawId reqBody)) = 200%nat ->
        size (store (postSync fault now db rawId reqBody))
        = match db !! normalizeId rawId with
          | None => S (size db)
          | Some _ => size db
          end).
Proof.
  split; [|split].
  - intros trace. cbn. do 2 f_equal.
    rewrite <- size_dom, dom_serve, dom_empty_L. f_equal. set_solver.
  - apply size_handle.
  - intros fault now db rawId reqBody E.
    apply store_postSync in E as [r ->].
    destruct (db !! normalizeId rawId) eqn:L.
    + now erewrite map_size_insert_Some by eauto.
    + now rewrite map_size_insert_None.
Qed.

(** ** What the engine's JSON functions are assumed to do *)

(** The serialisation of a value is not the empty string. *)
Hypothesis stringify_truthy :
  forall v, Json.wf v = true -> Text.truthy (JSON_stringify v) = true.

(** Parsing the serialisation of a value returns the value, up to the
    numbers the serialisation cannot write ([Json.reread]). *)
Hypothesis parse_stringify :
  forall v, Json.wf v = true -> JSON_parse (JSON_stringify v) = Value (Json.reread v).

Lemma getProp_wf o k v :
  Json.wf o = true -> Json.getProp o k = Some v -> Json.wf v = true.
Proof.
  destruct o as [| | | | |props]; try discriminate. cbn [Json.getProp Json.wf].
  intros W. apply andb_true_iff in W as [_ W]. revert W.
  induction props as [|[k' v'] props IH]; cbn; [discriminate|].
  intros W. apply andb_true_iff in W as [W1 W2].
  apply andb_true_iff in W1 as [_ W1].
  case_bool_decide; cbn; [now intros [= <-] | now apply IH].
Qed.

Lemma readColumn_writeColumn v :
  (forall x, v = Some x -> Json.wf x = true) ->
  readColumn (writeColumn v) = Done (readBack v).
Proof.
  intros W. destruct v as [x|]; [|reflexivity]. cbn.
  destruct (Json.truthy x); [|reflexivity]. cbn.
  now rewrite stringify_truthy, parse_stringify by now apply W.
Qed.

Lemma serialised_writeColumn v :
  (forall x, v = Some x -> Json.wf x = true) -> serialised (writeColumn v).
Proof.
  intros W. destruct v as [x|]; [|now left]. cbn.
  destruct (Json.truthy x); [right|now left]. exists x. split; [now apply W | reflexivity].
Qed.

Lemma readColumn_serialised col :
  serialised col -> exists v, readColumn col = Done v.
Proof.
  intros [->|(v & W & ->)]; [now exists JNull|].
  exists (Json.reread v). cbn.
  now rewrite stringify_truthy, parse_stringify.
Qed.

(** A write, then a read of the same identifier. *)
Lemma getSync_postSync now db rawId reqBody :
  invalidId (normalizeId rawId) = false ->
  Json.wf reqBody = true ->
  getSync None (store (postSync None now db rawId reqBody)) rawId
  = Outcome
      (Reply 200 (SyncData (Some (UserData
         (readBack (Json.getProp reqBody (Text.lit "paris")))
         (readBack (Json.getProp reqBody (Text.lit "london")))
         (Some (Clock.toISOString now))))))
      (store (postSync None now db rawId reqBody)) [].
Proof.
  intros H W. rewrite postSync_saved by done. cbn [store].
  apply (getSync_present _ _
           (Row (writeColumn (Json.getProp reqBody (Text.lit "paris")))
                (writeColumn (Json.getProp reqBody (Text.lit "london")))
                (Some (Clock.toISOString now)))); [done | apply lookup_insert_eq | |];
    cbn [paris_data london_data]; apply readColumn_writeColumn;
    intros x E; eapply getProp_wf; eauto.
Qed.

(** C1, as the code has it.  For a valid identifier and a body of the
    engine's values, a write the driver accepts followed by a read the driver
    answers returns, for each of [paris] and [london]: [null] when the
    property is missing or falsy, and otherwise the value as its
    serialisation reads back -- the value itself unless it contains a
    negative zero or a number that is not finite.  The timestamp returned is
    the ISO string of the handler's clock reading: it denotes that reading
    and no other instant, so an instant no earlier than the arrival of the
    request. *)
Theorem write_then_read (db : gmap text row) (rawId : text) (reqBody : json)
  (arrived now : Z) :
  invalidId (normalizeId rawId) = false ->
  Json.wf reqBody = true ->
  Clock.isTimeValue now ->
  arrived <= now ->
  response (getSync None (store (postSync None now db rawId reqBody)) rawId)
  = Reply 200 (SyncData (Some (UserData
      (readBack (Json.getProp reqBody (Text.lit "paris")))
      (readBack (Json.getProp reqBody (Text.lit "london")))
      (Some (Clock.toISOString now)))))
  /\ Clock.instant (Clock.toISOString now) = Some now
  /\ (forall t, Clock.instant (Clock.toISOString now) = Some t -> arrived <= t)
  /\ (forall v, Json.truthy v = true -> Json.reread v = v -> readBack (Some v) = v)
  /\ readBack None = JNull.
Proof.
  intros H W V T. pose proof (instant_toISOString now V) as I.
  split; [|split; [|split; [|split]]].
  - now rewrite getSync_postSync.
  - exact I.
  - intros t E. rewrite I in E. injection E as <-. exact T.
  - intros v Hv Hr. cbn. now rewrite Hv.
  - reflexivity.
Qed.

(** C4.  After an accepted write the row of the identifier is made of the
    request alone, whatever the table held before.  A body without [paris]
    stores [NULL] in [paris_data], and the next read returns [paris: null];
    the same holds for [london]. *)
Theorem omitted_field_cleared (db : gmap text row) (rawId : text)
  (reqBody : json) (now : Z) :
  invalidId (normalizeId rawId) = false ->
  Json.wf reqBody = true ->
  let db' := store (postSync None now db rawId reqBody) in
  let stamp := Some (Clock.toISOString now) in
  db' !! normalizeId rawId
  = Some (Row (writeColumn (Json.getProp reqBody (Text.lit "paris")))
              (writeColumn (Json.getProp reqBody (Text.lit "london"))) stamp)
  /\ (Json.getProp reqBody (Text.lit "paris") = None ->
      paris_data <$> db' !! normalizeId rawId = Some None
      /\ response (getSync None db' rawId)
         = Reply 200 (SyncData (Some (UserData JNull
             (readBack (Json.getProp reqBody (Text.lit "london"))) stamp))))
  /\ (Json.getProp reqBody (Text.lit "london") = None ->
      london_data <$> db' !! normalizeId rawId = Some None
      /\ response (getSync None db' rawId)
         = Reply 200 (SyncData (Some (UserData
             (readBack (Json.getProp reqBody (Text.lit "paris"))) JNull stamp)))).
Proof.
  intros H W db' stamp.
  assert (L : db' !! normalizeId rawId
              = Some (Row (writeColumn (Json.getProp reqBody (Text.lit "paris")))
                          (writeColumn (Json.getProp reqBody (Text.lit "london")))
                          stamp)).
  { subst db'. rewrite postSync_saved by done. apply lookup_insert_eq. }
  split; [exact L|]. subst db'.
  split; intros E; rewrite L, getSync_postSync by done; rewrite E; now cbn.
Qed.

(** ** Tables written through the handlers *)

Lemma handle_serialised (db : gmap text row) a :
  wfArrival a = true ->
  map_Forall (fun _ r => rowSerialised r) db ->
  map_Forall (fun _ r => rowSerialised r) (store (handle db a)).
Proof.
  intros W I. unfold handle, wfArrival in *.
  destruct (req a) as [rawId|rawId reqBody|].
  - now rewrite store_getSync.
  - unfold postSync. destruct (invalidId _); [exact I|].
    destruct (fault a); cbn; [exact I|].
    apply map_Forall_insert_2; [|exact I].
    split; cbn; apply serialised_writeColumn; intros x E; eapply getProp_wf; eauto.
  - now rewrite store_getStats.
Qed.

Lemma serve_serialised trace : forall db : gmap text row,
  forallb wfArrival trace = true ->
  map_Forall (fun _ r => rowSerialised r) db ->
  map_Forall (fun _ r => rowSerialised r) (serve db trace).
Proof.
  induction trace as [|a trace IH]; intros db W I; [exact I|].
  cbn in W. apply andb_true_iff in W as [Wa W].
  cbn [serve fold_left]. apply IH; [exact W|]. now apply handle_serialised.
Qed.

Lemma reachable_serialised db :
  reachable db -> map_Forall (fun _ r => rowSerialised r) db.
Proof.
  intros (trace & W & ->). apply serve_serialised; [exact W|].
  apply map_Forall_empty.
Qed.

Lemma reachable_handle db a :
  reachable db -> wfArrival a = true -> reachable (store (handle db a)).
Proof.
  intros (trace & W & ->) Wa. exists (trace ++ [a]). split.
  - rewrite forallb_app, W. cbn. now rewrite Wa.
  - unfold serve. now rewrite fold_left_app.
Qed.

Lemma readColumn_parses col p :
  match col with
  | Some (c :: s) => JSON_parse (c :: s) = Value p
  | _ => p = JNull
  end ->
  readColumn col = Done p.
Proof.
  destruct col as [[|c s]|]; cbn; [now intros -> | | now intros ->].
  now intros ->.
Qed.

Lemma readColumn_parsed col p :
  readColumn col = Done p ->
  match col with
  | Some (c :: s) => JSON_parse (c :: s) = Value p
  | _ => p = JNull
  end.
Proof.
  destruct col as [[|c s]|]; cbn; [now intros [= <-] | | now intros [= <-]].
  destruct (JSON_parse (c :: s)); [now intros [= <-] | discriminate].
Qed.

(** C6.  For a valid identifier and a read the driver answers: without a
    row the reply is success with [data: null]; with a row, each of [paris]
    and [london] is what [JSON.parse] returns for the text of its own column,
    and [null] when that column is [NULL] (or the empty string), whatever the
    other column holds; the timestamp is the stored one.  In a table written
    through the handlers the columns of a row always parse, so the reply is
    always that success. *)
Theorem get_absent_or_present (db : gmap text row) (rawId : text) :
  invalidId (normalizeId rawId) = false ->
  (db !! normalizeId rawId = None ->
   getSync None db rawId = Outcome (Reply 200 (SyncData None)) db [])
  /\ (forall r p l,
        db !! normalizeId rawId = Some r ->
        match paris_data r with
        | Some (c :: s) => JSON_parse (c :: s) = Value p
        | _ => p = JNull
        end ->
        match london_data r with
        | Some (c :: s) => JSON_parse (c :: s) = Value l
        | _ => l = JNull
        end ->
        getSync None db rawId
        = Outcome (Reply 200 (SyncData (Some (UserData p l (updated_at r))))) db [])
  /\ (reachable db ->
      forall r, db !! normalizeId rawId = Some r ->
      exists p l,
        match paris_data r with
        | Some (c :: s) => JSON_parse (c :: s) = Value p
        | _ => p = JNull
        end
        /\ match london_data r with
           | Some (c :: s) => JSON_parse (c :: s) = Value l
           | _ => l = JNull
           end
        /\ getSync None db rawId
           = Outcome (Reply 200 (SyncData (Some (UserData p l (updated_at r))))) db []).
Proof.
  intros H. split; [|split]; [|intros r p l L Hp Hl|intros R r L].
  - now apply getSync_absent.
  - apply getSync_present; try assumption; now apply readColumn_parses.
  - destruct (reachable_serialised db R _ _ L) as [Sp Sl].
    destruct (readColumn_serialised _ Sp) as [p Hp].
    destruct (readColumn_serialised _ Sl) as [l Hl].
    exists p, l. split; [now apply readColumn_parsed|].
    split; [now apply readColumn_parsed|]. now apply getSync_present.
Qed.

(** C10.  In a table that started empty and was written through the
    handlers only, each column of each row is [NULL] or the serialisation of
    a value, and every request keeps it so.  Both columns of every row
    deserialise, and a read the driver answers is never answered 500 and
    logs no error. *)
Theorem stored_columns_deserialise (db : gmap text row) :
  reachable db ->
  (forall k r, db !! k = Some r ->
     rowSerialised r
     /\ exists p l, readColumn (paris_data r) = Done p
                    /\ readColumn (london_data r) = Done l)
  /\ (forall a, wfArrival a = true -> reachable (store (handle db a)))
  /\ (forall rawId,
        status (response (getSync None db rawId)) <> 500%nat
        /\ console (getSync None db rawId) = []).
Proof.
  intros R. pose proof (reachable_serialised db R) as I.
  assert (D : forall k r, db !! k = Some r ->
            rowSerialised r
            /\ exists p l, readColumn (paris_data r) = Done p
                           /\ readColumn (london_data r) = Done l).
  { intros k r L. pose proof (I k r L) as [Sp Sl]. split; [now split|].
    destruct (readColumn_serialised _ Sp) as [p Hp].
    destruct (readColumn_serialised _ Sl) as [l Hl]. eauto. }
  split; [exact D|]. split; [intros a; now apply reachable_handle|].
  intros rawId. destruct (invalidId (normalizeId rawId)) eqn:V.
  - rewrite getSync_invalid by done. now cbn.
  - destruct (db !! normalizeId rawId) as [r|] eqn:L.
    + destruct (D _ _ L) as (_ & p & l & Hp & Hl).
      rewrite (getSync_present _ _ r p l) by done. now cbn.
    + rewrite getSync_absent by done. now cbn.
Qed.

(** ** Requests in sequence: what a table holds *)

Lemma store_handle (db : gmap text row) a :
  store (handle db a)
  = match acceptedWrite a with
    | Some (k, r) => <[k := r]> db
    | None => db
    end.
Proof.
  unfold handle, acceptedWrite. destruct (req a) as [rawId|rawId reqBody|].
  - rewrite store_getSync. now destruct (fault a).
  - unfold postSync. destruct (fault a), (invalidId _); reflexivity.
  - rewrite store_getStats. now destruct (fault a).
Qed.

Lemma acceptedWrite_inv a k r :
  acceptedWrite a = Some (k, r) ->
  exists rawId reqBody,
    req a = PostSync rawId reqBody /\ fault a = None
    /\ invalidId (normalizeId rawId) = false /\ k = normalizeId rawId
    /\ r = Row (writeColumn (Json.getProp reqBody (Text.lit "paris")))
               (writeColumn (Json.getProp reqBody (Text.lit "london")))
               (Some (Clock.toISOString (clock a))).
Proof.
  unfold acceptedWrite. destruct (req a) as [rawId|rawId reqBody|];
    destruct (fault a); try discriminate.
  destruct (invalidId _) eqn:V; [discriminate|]. intros [= <- <-].
  exists rawId, reqBody. repeat split; assumption.
Qed.

Lemma lastWrite_In k trace : forall r,
  lastWrite k trace = Some r ->
  exists a, In a trace /\ acceptedWrite a = Some (k, r).
Proof.
  induction trace as [|a trace IH]; intros r; cbn; [discriminate|].
  destruct (lastWrite k trace) as [r'|].
  - intros [= <-]. destruct (IH r' eq_refl) as (a' & I & E). eauto.
  - destruct (acceptedWrite a) as [[k' r']|] eqn:E; [|discriminate].
    case_bool_decide; [|discriminate]. intros [= <-]. subst k'. eauto.
Qed.

Lemma serve_lookup (trace : list arrival) : forall (db : gmap text row) (k : text),
  serve db trace !! k
  = match lastWrite k trace with
    | Some r => Some r
    | None => db !! k
    end.
Proof.
  induction trace as [|a trace IH]; intros db k; [reflexivity|].
  cbn [serve fold_left lastWrite]. fold (serve (store (handle db a)) trace).
  rewrite IH. destruct (lastWrite k trace); [reflexivity|].
  rewrite store_handle. destruct (acceptedWrite a) as [[k' r]|]; [|reflexivity].
  rewrite lookup_insert. case_bool_decide; case_decide; congruence.
Qed.

(** X1.  The row a table holds for a key is the row of the last accepted
    write to that key in the sequence of requests, and the row it held before
    when there was none: no earlier write, no rejected or failed write and no
    read has any part in it.  So two sequences with the same last accepted
    write for every key leave the same table. *)
Theorem last_write_wins :
  (forall (trace : list arrival) (db : gmap text row) (k : text),
     serve db trace !! k
     = match lastWrite k trace with
       | Some r => Some r
       | None => db !! k
       end)
  /\ (forall (trace1 trace2 : list arrival) (db : gmap text row),
        (forall k, lastWrite k trace1 = lastWrite k trace2) ->
        serve db trace1 = serve db trace2).
Proof.
  split; [intros trace db k; apply serve_lookup|].
  intros trace1 trace2 db E. apply map_eq. intros k.
  now rewrite !serve_lookup, E.
Qed.

(** X2.  Only the accepted writes of a sequence of requests matter for the
    table: dropping every other request (reads, stats, writes that were
    refused or that the driver failed) leaves the final table the same, and a
    sequence without an accepted write leaves the table as it was.  A request
    is an accepted write exactly when it is a POST answered 200. *)
Theorem only_accepted_writes_matter :
  (forall trace (db : gmap text row),
     serve db trace = serve db (List.filter isAcceptedWrite trace))
  /\ (forall trace (db : gmap text row),
        forallb (fun a => negb (isAcceptedWrite a)) trace = true ->
        serve db trace = db)
  /\ (forall (db : gmap text row) a,
        isAcceptedWrite a = true
        <-> (exists rawId reqBody, req a = PostSync rawId reqBody)
            /\ status (response (handle db a)) = 200%nat).
Proof.
  split; [|split].
  - induction trace as [|a trace IH]; intros db; [reflexivity|].
    cbn [serve fold_left List.filter]. fold (serve (store (handle db a)) trace).
    rewrite IH, store_handle. unfold isAcceptedWrite.
    destruct (acceptedWrite a) as [[k r]|] eqn:E; [|reflexivity].
    cbn [serve fold_left]. now rewrite store_handle, E.
  - induction trace as [|a trace IH]; intros db H; [reflexivity|].
    cbn in H. apply andb_true_iff in H as [Ha H].
    cbn [serve fold_left]. fold (serve (store (handle db a)) trace).
    rewrite IH by exact H. rewrite store_handle. unfold isAcceptedWrite in Ha.
    now destruct (acceptedWrite a).
  - intros db a. unfold isAcceptedWrite, acceptedWrite, handle, postSync.
    destruct (req a) as [rawId|rawId reqBody|]; destruct (fault a);
      try (split; [discriminate | now intros [(? & ? & ?) _]]).
    + destruct (invalidId _); cbn;
        (split; [discriminate | now intros [_ ?]]).
    + destruct (invalidId _); cbn; (split; [try discriminate | try now intros [_ ?]]).
      intros _. split; [eauto | reflexivity].
Qed.

(** X3.  Every key of a table that started empty is a normalised identifier
    that passed validation: it is made of [a-z0-9_-] and its length is
    between 3 and 30. *)
Theorem stored_keys_normalised (trace : list arrival) (k : text) :
  is_Some (serve ∅ trace !! k) ->
  forallb Text.idChar k = true /\ (3 <= length k <= 30)%nat.
Proof.
  rewrite serve_lookup, lookup_empty. intros [r E].
  destruct (lastWrite k trace) as [r'|] eqn:L; [|discriminate].
  destruct (lastWrite_In _ _ _ L) as (a & _ & W).
  destruct (acceptedWrite_inv _ _ _ W) as (rawId & reqBody & _ & _ & V & -> & _).
  split; [apply normalizeId_idChars|].
  destruct (Nat.le_gt_cases 3 (length (normalizeId rawId))) as [A|A],
           (Nat.le_gt_cases (length (normalizeId rawId)) 30) as [B|B]; [lia| | |];
    (assert (X : invalidId (normalizeId rawId) = true)
       by (apply invalidId_length; lia); congruence).
Qed.

(** X4.  Every row of a table that started empty carries a timestamp: its
    [updated_at] is never [NULL], it is the ISO string of the clock reading of
    a write of the sequence to that key, and it reads back to that clock
    reading when the reading is a time value. *)
Theorem stored_rows_timestamped (trace : list arrival) (k : text) (r : row) :
  serve ∅ trace !! k = Some r ->
  exists a rawId reqBody,
    In a trace /\ req a = PostSync rawId reqBody /\ normalizeId rawId = k
    /\ updated_at r = Some (Clock.toISOString (clock a))
    /\ (Clock.isTimeValue (clock a) ->
        Clock.instant (Clock.toISOString (clock a)) = Some (clock a)).
Proof.
  rewrite serve_lookup, lookup_empty. intros E.
  destruct (lastWrite k trace) as [r'|] eqn:L; [|discriminate].
  injection E as ->.
  destruct (lastWrite_In _ _ _ L) as (a & I & W).
  destruct (acceptedWrite_inv _ _ _ W) as (rawId & reqBody & Q & _ & _ & -> & ->).
  exists a, rawId, reqBody. repeat split; try assumption.
  apply instant_toISOString.
Qed.

(** ** One user and the others *)

Lemma getSync_ext (fault : option text) (db1 db2 : gmap text row) (rawId : text) :
  db1 !! normalizeId rawId = db2 !! normalizeId rawId ->
  response (getSync fault db1 rawId) = response (getSync fault db2 rawId)
  /\ console (getSync fault db1 rawId) = console (getSync fault db2 rawId).
Proof.
  intros E. unfold getSync. destruct (invalidId _); [now split|].
  unfold selectUser. destruct fault; cbn; [now split|]. rewrite E.
  destruct (db2 !! normalizeId rawId) as [r|]; cbn; [|now split].
  destruct (readColumn (paris_data r)); cbn; [|now split].
  destruct (readColumn (london_data r)); cbn; now split.
Qed.

(** X5.  A write for one identifier is invisible to every other one: a read
    of an identifier with a different normal form gets the same reply, and
    logs the same, after the write as before it, whether or not the write was
    accepted. *)
Theorem other_users_untouched (fault fault' : option text) (now : Z)
  (db : gmap text row) (rawId rawId' : text) (reqBody : json) :
  normalizeId rawId' <> normalizeId rawId ->
  response (getSync fault' (store (postSync fault now db rawId reqBody)) rawId')
  = response (getSync fault' db rawId')
  /\ console (getSync fault' (store (postSync fault now db rawId reqBody)) rawId')
     = console (getSync fault' db rawId').
Proof.
  intros N. apply getSync_ext.
  change (postSync fault now db rawId reqBody)
    with (handle db (Arrival (PostSync rawId reqBody) fault now)).
  rewrite store_handle.
  destruct (acceptedWrite _) as [[k r]|] eqn:W; [|reflexivity].
  apply acceptedWrite_inv in W as (rawId0 & reqBody0 & Q & _ & _ & -> & _).
  cbn in Q. injection Q as <- <-. now rewrite lookup_insert_ne.
Qed.

(** X6.  Writes for identifiers with different normal forms commute: the
    table after both is the same in either order, and each write gets the
    same reply whichever comes first. *)
Theorem writes_to_different_users_commute (fault1 fault2 : option text)
  (now1 now2 : Z) (db : gmap text row) (rawId1 rawId2 : text) (body1 body2 : json) :
  normalizeId rawId1 <> normalizeId rawId2 ->
  store (postSync fault2 now2 (store (postSync fault1 now1 db rawId1 body1)) rawId2 body2)
  = store (postSync fault1 now1 (store (postSync fault2 now2 db rawId2 body2)) rawId1 body1)
  /\ response (postSync fault1 now1 (store (postSync fault2 now2 db rawId2 body2)) rawId1 body1)
     = response (postSync fault1 now1 db rawId1 body1)
  /\ response (postSync fault2 now2 (store (postSync fault1 now1 db rawId1 body1)) rawId2 body2)
     = response (postSync fault2 now2 db rawId2 body2).
Proof.
  intros N. unfold postSync.
  destruct (invalidId (normalizeId rawId1)), (invalidId (normalizeId rawId2)),
    fault1, fault2; cbn; repeat split.
  now apply insert_insert_ne.
Qed.

Lemma normalizeId_ascii (raw : text) :
  ascii raw = true ->
  normalizeId raw = Text.strip (List.map Text.asciiLower raw).
Proof.
  intros A. unfold normalizeId, toLowerCase. f_equal.
  generalize (@nil N). induction raw as [|c raw IH]; intros before; [reflexivity|].
  cbn in A. apply andb_true_iff in A as [Ac A].
  cbn [lowerFrom List.map]. rewrite Ac. cbn. f_equal. now apply IH.
Qed.

(** X7.  An identifier made of ASCII characters normalises to its characters
    of [A-Za-z0-9_-], in order, with the capitals in lower case; the engine's
    case tables play no part, and the normal form is no longer than the
    identifier. *)
Theorem ascii_identifier_normal_form (raw : text) :
  ascii raw = true ->
  normalizeId raw = Text.strip (List.map Text.asciiLower raw)
  /\ (length (normalizeId raw) <= length raw)%nat.
Proof.
  intros A. rewrite normalizeId_ascii by exact A. split; [reflexivity|].
  unfold Text.strip. clear A.
  induction raw as [|c raw IH]; cbn; [lia|].
  destruct (Text.idChar (Text.asciiLower c)); cbn; lia.
Qed.

(** X8.  Two ASCII identifiers that leave the same characters of
    [A-Za-z0-9_-] up to case are one identifier to the server: upper and
    lower case, and every character outside the class, make no difference to
    any outcome of a read or a write. *)
Theorem spelling_irrelevant (rawId1 rawId2 : text) :
  ascii rawId1 = true ->
  ascii rawId2 = true ->
  Text.strip (List.map Text.asciiLower rawId1)
  = Text.strip (List.map Text.asciiLower rawId2) ->
  forall (fault : option text) (now : Z) (db : gmap text row) (reqBody : json),
    getSync fault db rawId1 = getSync fault db rawId2
    /\ postSync fault now db rawId1 reqBody = postSync fault now db rawId2 reqBody.
Proof.
  intros A1 A2 E fault now db reqBody.
  assert (N : normalizeId rawId1 = normalizeId rawId2)
    by now rewrite !normalizeId_ascii.
  unfold getSync, postSync. now rewrite N.
Qed.

(** X9.  Status 400 is the answer to an invalid identifier and to nothing
    else: a read or a write is answered 400 exactly when the normal form of
    its identifier is shorter than 3 or longer than 30, whatever the table,
    the body and the driver do; the stats handler never answers 400. *)
Theorem bad_request_iff_invalid (fault : option text) (now : Z)
  (db : gmap text row) (rawId : text) (reqBody : json) :
  (status (response (getSync fault db rawId)) = 400%nat
   <-> (length (normalizeId rawId) < 3 \/ 30 < length (normalizeId rawId))%nat)
  /\ (status (response (postSync fault now db rawId reqBody)) = 400%nat
      <-> (length (normalizeId rawId) < 3 \/ 30 < length (normalizeId rawId))%nat)
  /\ status (response (getStats fault db)) <> 400%nat.
Proof.
  rewrite <- invalidId_length. unfold getSync, postSync, getStats.
  destruct (invalidId (normalizeId rawId)); (split; [|split]);
    try (destruct fault; cbn; (discriminate || (split; (reflexivity || discriminate)))).
  destruct (_ ≫= _); cbn; split; discriminate.
Qed.

(** X10.  A column that holds text the engine cannot parse fails the whole
    read: the reply is 500 with the fixed message, the error is logged, and
    the table is left as it is.  [paris_data] is parsed first, so its error
    is the one logged; an error in [london_data] fails the read even though
    [paris_data] parsed. *)
Theorem corrupt_column_fails_read (db : gmap text row) (rawId : text)
  (r : row) (e : exn) :
  invalidId (normalizeId rawId) = false ->
  db !! normalizeId rawId = Some r ->
  readColumn (paris_data r) = Raised e
  \/ (exists p, readColumn (paris_data r) = Done p)
     /\ readColumn (london_data r) = Raised e ->
  getSync None db rawId
  = Outcome (Reply 500 (ErrorBody (Text.lit "Database error"))) db
      [ConsoleError (Text.lit "Database read error:") e].
Proof.
  intros V L H. unfold getSync. rewrite V. cbn. rewrite L. cbn.
  destruct H as [-> | [[p ->] ->]]; reflexivity.
Qed.

(** X11.  The timestamp a write returns tells writes apart: when two
    accepted writes, to any identifiers and tables, get the same reply, their
    handlers read the same clock value. *)
Theorem timestamps_tell_writes_apart (now1 now2 : Z) (db1 db2 : gmap text row)
  (rawId1 rawId2 : text) (body1 body2 : json) :
  invalidId (normalizeId rawId1) = false ->
  invalidId (normalizeId rawId2) = false ->
  Clock.isTimeValue now1 ->
  Clock.isTimeValue now2 ->
  response (postSync None now1 db1 rawId1 body1)
  = response (postSync None now2 db2 rawId2 body2) ->
  now1 = now2.
Proof.
  intros V1 V2 T1 T2. rewrite !postSync_saved by assumption. cbn [response].
  intros [= E]. apply instant_toISOString in T1, T2.
  rewrite E, T2 in T1. now injection T1.
Qed.

(** X12.  Every 500 of the two sync handlers is logged with its cause,
    under the label of the handler, and a reply of a sync handler that is not
    a 500 logs no error; the stats handler logs nothing, not even the error it
    answers with. *)
Theorem sync_errors_logged (fault : option text) (now : Z)
  (db : gmap text row) (rawId : text) (reqBody : json) :
  (status (response (getSync fault db rawId)) = 500%nat
   <-> exists e, console (getSync fault db rawId)
                 = [ConsoleError (Text.lit "Database read error:") e])
  /\ (status (response (postSync fault now db rawId reqBody)) = 500%nat
      <-> exists e, console (postSync fault now db rawId reqBody)
                    = [ConsoleError (Text.lit "Database write error:") e])
  /\ console (getStats fault db) = [].
Proof.
  unfold getSync, postSync, getStats.
  destruct (invalidId (normalizeId rawId)); (split; [|split]);
    try (destruct fault; reflexivity);
    try (cbn; split; [discriminate | intros [e E]; discriminate]).
  - destruct (_ ≫= _); cbn; split;
      (discriminate || eauto || (intros [e' E]; discriminate)).
  - destruct fault; cbn; split;
      (discriminate || eauto || (intros [e' E]; discriminate)).
Qed.

(** X13.  A read returns the last accepted write.  On a table that started
    empty, after any sequence of requests whose bodies are values of the
    engine, a read of a valid identifier that the driver answers is answered
    200: with [data: null] when no write to the identifier was accepted, and
    otherwise with the two properties of the body of the last accepted
    write, as they read back, and the timestamp of that write. *)
Theorem read_returns_last_write (trace : list arrival) (rawId : text) :
  invalidId (normalizeId rawId) = false ->
  forallb wfArrival trace = true ->
  match lastWrite (normalizeId rawId) trace with
  | None =>
      response (getSync None (serve ∅ trace) rawId) = Reply 200 (SyncData None)
  | Some r =>
      exists a rawId' reqBody,
        In a trace /\ req a = PostSync rawId' reqBody
        /\ normalizeId rawId' = normalizeId rawId
        /\ acceptedWrite a = Some (normalizeId rawId, r)
        /\ response (getSync None (serve ∅ trace) rawId)
           = Reply 200 (SyncData (Some (UserData
               (readBack (Json.getProp reqBody (Text.lit "paris")))
               (readBack (Json.getProp reqBody (Text.lit "london")))
               (Some (Clock.toISOString (clock a))))))
  end.
Proof.
  intros V W.
  pose proof (serve_lookup trace ∅ (normalizeId rawId)) as L.
  rewrite lookup_empty in L.
  destruct (lastWrite (normalizeId rawId) trace) as [r|] eqn:E.
  - destruct (lastWrite_In _ _ _ E) as (a & I & A).
    destruct (acceptedWrite_inv _ _ _ A) as (rawId' & reqBody & Q & _ & _ & N & R).
    exists a, rawId', reqBody. repeat split; try assumption; [now symmetry|].
    assert (Wa : Json.wf reqBody = true).
    { rewrite forallb_forall in W. specialize (W a I).
      unfold wfArrival in W. now rewrite Q in W. }
    rewrite (getSync_present _ _ r
               (readBack (Json.getProp reqBody (Text.lit "paris")))
               (readBack (Json.getProp reqBody (Text.lit "london")))); try assumption.
    + now rewrite R.
    + rewrite R. cbn. apply readColumn_writeColumn. intros x H. eapply getProp_wf; eauto.
    + rewrite R. cbn. apply readColumn_writeColumn. intros x H. eapply getProp_wf; eauto.
  - now rewrite getSync_absent.
Qed.

(** ** Falsy properties *)

Lemma getProp_cons k v props k' :
  Json.getProp (JObj ((k, v) :: props)) k'
  = if bool_decide (k = k') then Some v else Json.getProp (JObj props) k'.
Proof. cbn. now case_bool_decide. Qed.

(** X14.  A property of the body that is falsy is written exactly as a
    missing one: adding [paris] with such a value to a body without [paris]
    changes nothing in the outcome of the write, and so for [london].  The
    falsy values are [null], [false], the two zeros, [NaN] and the empty
    string; every array and object, even an empty one, is kept. *)
Theorem falsy_property_is_omitted (v : json) (other : list (text * json)) :
  Json.truthy v = false ->
  (Json.getProp (JObj other) (Text.lit "paris") = None ->
   forall (fault : option text) (now : Z) (db : gmap text row) (rawId : text),
     postSync fault now db rawId (JObj ((Text.lit "paris", v) :: other))
     = postSync fault now db rawId (JObj other))
  /\ (Json.getProp (JObj other) (Text.lit "london") = None ->
      forall (fault : option text) (now : Z) (db : gmap text row) (rawId : text),
        postSync fault now db rawId (JObj ((Text.lit "london", v) :: other))
        = postSync fault now db rawId (JObj other))
  /\ (v = JNull \/ v = JBool false \/ (exists s, v = JNum (S754_zero s))
      \/ v = JNum S754_nan \/ v = JStr []).
Proof.
  intros F.
  assert (D : Text.lit "paris" <> Text.lit "london")
    by (intros E; vm_compute in E; discriminate E).
  split; [|split].
  - intros N fault now db rawId. unfold postSync. rewrite !getProp_cons.
    rewrite bool_decide_eq_true_2 by reflexivity.
    rewrite bool_decide_eq_false_2 by exact D.
    rewrite N. cbn [writeColumn]. now rewrite F.
  - intros N fault now db rawId. unfold postSync. rewrite !getProp_cons.
    rewrite bool_decide_eq_false_2 by (intros E; apply D; now symmetry).
    rewrite bool_decide_eq_true_2 by reflexivity.
    rewrite N. cbn [writeColumn]. now rewrite F.
  - destruct v as [|[|]|[s| | |s m e]|[|c s]|items|props]; cbn in F;
      try discriminate F; eauto 10.
Qed.

End Server.

(** ** The reference engine does what the handlers assume *)

Module RefFacts.

Open Scope N_scope.

Ltac Zify.zify_post_hook ::= Z.to_euclidean_division_equations.

Lemma isDigit_iff c : Ref.isDigit c = true <-> 48 <= c <= 57.
Proof. unfold Ref.isDigit. rewrite andb_true_iff, !N.leb_le. tauto. Qed.

Lemma digitsFuel_digits fuel : forall n, forallb Ref.isDigit (Ref.digitsFuel fuel n) = true.
Proof.
  induction fuel as [|fuel IH]; intros n; cbn; [reflexivity|].
  destruct (n <? 10) eqn:E.
  - cbn. rewrite andb_true_r. apply isDigit_iff. apply N.ltb_lt in E. lia.
  - rewrite forallb_app, IH. cbn. rewrite andb_true_r. apply isDigit_iff.
    pose proof (N.mod_upper_bound n 10). lia.
Qed.

Lemma readDigits_stop acc s : Ref.headDigit s = false -> Ref.readDigits acc s = (acc, s).
Proof. destruct s as [|c s]; cbn; [reflexivity|]. now intros ->. Qed.

Lemma readDigits_digitsFuel fuel : forall n acc rest,
  n < 2 ^ N.of_nat fuel ->
  Ref.readDigits acc (Ref.digitsFuel fuel n ++ rest)
  = Ref.readDigits (acc * 10 ^ N.of_nat (length (Ref.digitsFuel fuel n)) + n) rest.
Proof.
  induction fuel as [|fuel IH]; intros n acc rest B.
  - cbn in *. f_equal. lia.
  - cbn [Ref.digitsFuel]. destruct (n <? 10) eqn:E.
    + apply N.ltb_lt in E. cbn [app length Ref.readDigits].
      replace (Ref.isDigit (48 + n)) with true by (symmetry; apply isDigit_iff; lia).
      f_equal. cbn. lia.
    + apply N.ltb_ge in E. rewrite <- app_assoc. cbn [app].
      rewrite IH.
      2:{ rewrite Nat2N.inj_succ, N.pow_succ_r' in B. lia. }
      cbn [Ref.readDigits].
      replace (Ref.isDigit (48 + n mod 10)) with true
        by (symmetry; apply isDigit_iff; pose proof (N.mod_upper_bound n 10); lia).
      f_equal. rewrite length_app. cbn [length]. rewrite Nat.add_1_r, Nat2N.inj_succ, N.pow_succ_r'.
      pose proof (N.div_mod n 10). lia.
Qed.

Lemma decimal_cons n : exists c ds, Ref.decimal n = c :: ds /\ Ref.isDigit c = true.
Proof.
  pose proof (digitsFuel_digits (S (N.to_nat (N.log2 n))) n) as D.
  unfold Ref.decimal. destruct (Ref.digitsFuel _ n) as [|c ds] eqn:E.
  - cbn in E. destruct (n <? 10); [discriminate|]. now destruct (Ref.digitsFuel _ _).
  - cbn in D. apply andb_true_iff in D as [D _]. eauto.
Qed.

Lemma readNumeral_decimal n rest :
  Ref.headDigit rest = false -> Ref.readNumeral (Ref.decimal n ++ rest) = Some (n, rest).
Proof.
  intros H. destruct (decimal_cons n) as (c & ds & E & D).
  unfold Ref.readNumeral. rewrite E. cbn [app]. rewrite D.
  change (c :: ds ++ rest) with ((c :: ds) ++ rest). rewrite <- E.
  unfold Ref.decimal. rewrite readDigits_digitsFuel.
  - rewrite readDigits_stop by done. f_equal.
  - rewrite Nat2N.inj_succ, N2Nat.id. destruct (N.eq_dec n 0) as [->|Z]; [reflexivity|].
    apply N.log2_spec. lia.
Qed.

Lemma digits2_size m : digits2_pos m = Pos.size m.
Proof. induction m; cbn; congruence. Qed.

Lemma digits2_log2 m : Z.pos (digits2_pos m) = (Z.of_N (N.log2 (Npos m)) + 1)%Z.
Proof. destruct m; cbn; rewrite ?digits2_size; lia. Qed.

Lemma valid_integer s m e :
  valid_binary 53 1024 (S754_finite s m e) = true -> (0 <= e)%Z ->
  (Z.of_N (N.log2 (Npos m)) + 1 = 53)%Z.
Proof.
  intros V E. unfold valid_binary, bounded, canonical_mantissa, fexp, emin in V.
  apply andb_true_iff in V as [V _]. apply Z.eqb_eq in V.
  rewrite digits2_log2 in V.
  change IntDef.Z.max with Z.max in V. change IntDef.Z.sub with Z.sub in V.
  change IntDef.Z.add with Z.add in V. lia.
Qed.

Lemma delimited_headDigit rest : Ref.delimited rest = true -> Ref.headDigit rest = false.
Proof.
  destruct rest as [|c rest]; cbn; [reflexivity|].
  rewrite !orb_true_iff, !N.eqb_eq. intros H.
  apply not_true_iff_false. rewrite isDigit_iff. lia.
Qed.

Lemma ofInteger_exact s m e :
  valid_binary 53 1024 (S754_finite s m e) = true -> (0 <= e)%Z ->
  Ref.ofInteger s (Npos m * 2 ^ Z.to_N e) = Some (S754_finite s m e).
Proof.
  intros V E. pose proof (valid_integer s m e V E) as L.
  unfold Ref.ofInteger.
  assert (P : 2 ^ Z.to_N e <> 0) by (apply N.pow_nonzero; lia).
  destruct (_ =? 0) eqn:Z0; [apply N.eqb_eq in Z0; lia|].
  rewrite N.log2_mul_pow2 by lia.
  replace (Z.of_N (Z.to_N e + N.log2 (N.pos m)) + 1 - 53)%Z with e by lia.
  replace (0 <=? e)%Z with true by (symmetry; now apply Z.leb_le).
  rewrite N.Div0.mod_mul, N.eqb_refl, N.div_mul by done.
  unfold Ref.binary64. now rewrite V.
Qed.

Lemma ofTenths_exact s m k :
  valid_binary 53 1024 (S754_finite s m (- Z.of_N k)) = true ->
  Ref.ofTenths s (Npos m * 5 ^ k) k = Some (S754_finite s m (- Z.of_N k)).
Proof.
  intros V. unfold Ref.ofTenths.
  assert (P : 5 ^ k <> 0) by (apply N.pow_nonzero; lia).
  rewrite N.Div0.mod_mul, N.eqb_refl, N.div_mul by done.
  unfold Ref.binary64. now rewrite V.
Qed.

Lemma readMagnitude_magnitude s m e rest :
  valid_binary 53 1024 (S754_finite s m e) = true ->
  Ref.delimited rest = true ->
  Ref.readMagnitude s (Ref.magnitude m e ++ rest) = Some (JNum (S754_finite s m e), rest).
Proof.
  intros V D. pose proof (delimited_headDigit rest D) as H.
  unfold Ref.readMagnitude, Ref.magnitude. destruct (0 <=? e)%Z eqn:E.
  - apply Z.leb_le in E. rewrite readNumeral_decimal by done. cbn [mbind option_bind].
    rewrite ofInteger_exact by done.
    destruct rest as [|c1 [|c2 rest]]; try reflexivity.
    cbn in D. replace (c1 =? 101) with false; [reflexivity|].
    symmetry. apply N.eqb_neq. rewrite !orb_true_iff, !N.eqb_eq in D. lia.
  - apply Z.leb_gt in E. change (Text.lit "e-") with [101; 45].
    rewrite <- !app_assoc. rewrite readNumeral_decimal by reflexivity.
    cbn [mbind option_bind app N.eqb Pos.eqb andb].
    rewrite readNumeral_decimal by done. cbn [mbind option_bind].
    replace e with (- Z.of_N (Z.to_N (- e)))%Z in V at 1 by lia.
    rewrite ofTenths_exact by exact V. cbn [mbind option_bind].
    do 4 f_equal. lia.
Qed.

Lemma readNumber_number x rest :
  valid_binary 53 1024 x = true ->
  Ref.delimited rest = true ->
  Ref.numeric x = true ->
  Ref.readNumber (Ref.number x ++ rest) = Some (Json.reread (JNum x), rest).
Proof.
  intros V D F. destruct x as [s| | |s m e]; try discriminate.
  - change (Ref.number (S754_zero s)) with (Ref.decimal 0).
    destruct (decimal_cons 0) as (c & ds & E & C). rewrite E. cbn [app Ref.readNumber].
    replace (c =? 45) with false
      by (symmetry; apply N.eqb_neq; apply isDigit_iff in C; lia).
    change (c :: ds ++ rest) with ((c :: ds) ++ rest). rewrite <- E.
    unfold Ref.readMagnitude. rewrite readNumeral_decimal by now apply delimited_headDigit.
    cbn [mbind option_bind].
    destruct rest as [|c1 [|c2 rest]]; try reflexivity.
    cbn in D. replace (c1 =? 101) with false; [reflexivity|].
    symmetry. apply N.eqb_neq. rewrite !orb_true_iff, !N.eqb_eq in D. lia.
  - cbn [Ref.number Json.reread]. destruct s.
    + change (Text.lit "-") with [45]. cbn [app Ref.readNumber N.eqb Pos.eqb].
      now apply readMagnitude_magnitude.
    + cbn [app]. pose proof (readMagnitude_magnitude false m e rest V D) as R.
      destruct (Ref.magnitude m e ++ rest) as [|c s'] eqn:E; [discriminate|].
      cbn [Ref.readNumber]. destruct (c =? 45) eqn:C; [|exact R].
      apply N.eqb_eq in C. subst c. discriminate.
Qed.

Lemma unhex_hex n : n < 16 -> Ref.unhex (Ref.hex n) = Some n.
Proof.
  intros B. unfold Ref.hex, Ref.unhex, Ref.isDigit.
  destruct (n <? 10) eqn:E.
  - apply N.ltb_lt in E.
    replace ((48 <=? 48 + n) && (48 + n <=? 57)) with true
      by (symmetry; rewrite andb_true_iff, !N.leb_le; lia).
    f_equal. lia.
  - apply N.ltb_ge in E.
    replace ((48 <=? 87 + n) && (87 + n <=? 57)) with false
      by (symmetry; rewrite andb_false_iff, !N.leb_gt; lia).
    replace ((97 <=? 87 + n) && (87 + n <=? 102)) with true
      by (symmetry; rewrite andb_true_iff, !N.leb_le; lia).
    f_equal. lia.
Qed.

Lemma unquote_escape c s :
  Ref.unquote (Ref.escape c ++ s)
  = '(str, rest) ← Ref.unquote s; Some (c :: str, rest).
Proof.
  unfold Ref.escape.
  destruct (c =? 34) eqn:E1; [|destruct (c =? 92) eqn:E2]; cbn [orb].
  - apply N.eqb_eq in E1 as ->. reflexivity.
  - apply N.eqb_eq in E2 as ->. reflexivity.
  - destruct ((c <? 32) || Ref.isSurrogate c) eqn:E3.
    + assert (B : c < 65536).
      { apply orb_true_iff in E3 as [E3|E3]; [apply N.ltb_lt in E3; lia|].
        unfold Ref.isSurrogate in E3. rewrite andb_true_iff, !N.leb_le in E3. lia. }
      cbn [app Ref.unquote N.eqb Pos.eqb orb].
      rewrite !unhex_hex by lia. cbn [mbind option_bind].
      replace (4096 * (c / 4096) + 256 * (c / 256 mod 16) + 16 * (c / 16 mod 16) + c mod 16)
        with c by lia.
      reflexivity.
    + cbn [app Ref.unquote]. now rewrite E1, E2.
Qed.

Lemma unquote_quoted s rest :
  Ref.unquote (flat_map Ref.escape s ++ 34 :: rest) = Some (s, rest).
Proof.
  induction s as [|c s IH]; [reflexivity|].
  cbn [flat_map]. rewrite <- app_assoc, unquote_escape, IH. reflexivity.
Qed.

Lemma number_head x :
  Ref.numeric x = true ->
  exists c r, Ref.number x = c :: r /\ Ref.isDigit c || (c =? 45) = true.
Proof.
  destruct x as [s| | |s m e]; try discriminate; intros _.
  - exists 48, []. split; reflexivity.
  - cbn [Ref.number]. destruct s.
    + exists 45, (Ref.magnitude m e). split; reflexivity.
    + cbn [app]. unfold Ref.magnitude. destruct (0 <=? e)%Z.
      * destruct (decimal_cons (N.pos m * 2 ^ Z.to_N e)) as (c & ds & -> & C).
        exists c, ds. now rewrite C.
      * destruct (decimal_cons (N.pos m * 5 ^ Z.to_N (- e))) as (c & ds & -> & C).
        eexists c, _. split; [reflexivity|]. now rewrite C.
Qed.

Lemma stringify_head v : exists c r, Ref.stringify v = c :: r /\ Ref.opens c = true.
Proof.
  destruct v as [|[|]|x|s|items|props]; try (eexists _, _; split; reflexivity).
  destruct (Ref.numeric x) eqn:F.
  - destruct (number_head x F) as (c & r & E & C). exists c, r. split; [exact E|].
    unfold Ref.opens. now rewrite C.
  - destruct x; try discriminate; eexists _, _; split; reflexivity.
Qed.

Lemma readValue_number fuel x rest :
  valid_binary 53 1024 x = true -> Ref.delimited rest = true ->
  Ref.readValue (S fuel) (Ref.number x ++ rest) = Some (Json.reread (JNum x), rest).
Proof.
  intros V D. destruct (Ref.numeric x) eqn:F.
  - destruct (number_head x F) as (c & r & E & C).
    pose proof (readNumber_number x rest V D F) as R.
    rewrite E in *. cbn [app Ref.readValue]. rewrite C. exact R.
  - destruct x; try discriminate; reflexivity.
Qed.

Lemma commas_cons p q parts :
  Ref.commas (p :: q :: parts) = p ++ 44 :: Ref.commas (q :: parts).
Proof. reflexivity. Qed.

Lemma readValue_stringify v :
  Json.wf v = true ->
  forall fuel rest, (Ref.cost v <= fuel)%nat -> Ref.delimited rest = true ->
  Ref.readValue fuel (Ref.stringify v ++ rest) = Some (Json.reread v, rest).
Proof.
  induction v as [|b|x|s|items IH|props IH] using json_nested_ind;
    intros W fuel rest C D; (destruct fuel as [|fuel]; [cbn in C; lia|]).
  - reflexivity.
  - destruct b; reflexivity.
  - now apply readValue_number.
  - cbn [Ref.stringify]. unfold Ref.quote. rewrite <- ?app_assoc.
    cbn [app Ref.readValue Ref.isDigit N.leb N.compare Pos.compare Pos.compare_cont
         andb orb N.eqb Pos.eqb].
    rewrite unquote_quoted. reflexivity.
  - cbn [Ref.stringify Json.reread Json.wf Ref.cost] in *. rewrite <- ?app_assoc.
    cbn [app Ref.readValue Ref.isDigit N.leb N.compare Pos.compare Pos.compare_cont
         andb orb N.eqb Pos.eqb].
    destruct items as [|v items]; [reflexivity|].
    assert (R : forall items, Forall (fun v => Json.wf v = true ->
                  forall fuel rest, (Ref.cost v <= fuel)%nat -> Ref.delimited rest = true ->
                  Ref.readValue fuel (Ref.stringify v ++ rest) = Some (Json.reread v, rest)) items ->
                forallb Json.wf items = true -> items <> [] ->
                forall fuel rest,
                  (list_sum (List.map (fun x => S (Ref.cost x)) items) <= fuel)%nat ->
                  Ref.delimited rest = true ->
                  Ref.readItems fuel (Ref.commas (List.map Ref.stringify items) ++ 93 :: rest)
                  = Some (List.map Json.reread items, rest)).
    { clear. induction items as [|v items IHi]; intros A W N fuel rest C D; [done|].
      apply Forall_cons in A as [Av A]. cbn in W. apply andb_true_iff in W as [Wv W].
      cbn in C. destruct fuel as [|fuel]; [lia|].
      destruct items as [|v' items].
      - cbn [List.map Ref.commas Ref.readItems].
        rewrite Av by (done || cbn in *; lia). reflexivity.
      - cbn [List.map]. rewrite commas_cons, <- app_assoc. cbn [app Ref.readItems].
        rewrite Av by (done || cbn in *; lia). cbn [mbind option_bind N.eqb Pos.eqb].
        change (Ref.stringify v' :: List.map Ref.stringify items)
          with (List.map Ref.stringify (v' :: items)).
        rewrite IHi by (done || cbn in *; lia). reflexivity. }
    destruct (stringify_head v) as (c & r & E & O).
    replace (Ref.eat [93] (Ref.commas (List.map Ref.stringify (v :: items)) ++ 93 :: rest))
      with (@None text).
    2:{ symmetry. destruct items; cbn [List.map Ref.commas]; rewrite E;
          cbn [app]; destruct (93 =? c) eqn:Q; cbn [Ref.eat]; rewrite Q; try reflexivity;
          apply N.eqb_eq in Q; subst c; discriminate. }
    rewrite R by (done || lia). reflexivity.
  - cbn [Ref.stringify Json.reread Json.wf Ref.cost] in *. rewrite <- ?app_assoc.
    cbn [app Ref.readValue Ref.isDigit N.leb N.compare Pos.compare Pos.compare_cont
         andb orb N.eqb Pos.eqb].
    destruct props as [|kv props]; [reflexivity|].
    apply andb_true_iff in W as [_ W].
    assert (R : forall props, Forall (fun kv => Json.wf (snd kv) = true ->
                  forall fuel rest, (Ref.cost (snd kv) <= fuel)%nat -> Ref.delimited rest = true ->
                  Ref.readValue fuel (Ref.stringify (snd kv) ++ rest)
                  = Some (Json.reread (snd kv), rest)) props ->
                forallb (fun kv => Text.wf (fst kv) && Json.wf (snd kv)) props = true ->
                props <> [] ->
                forall fuel rest,
                  (list_sum (List.map (fun kv => S (Ref.cost (snd kv))) props) <= fuel)%nat ->
                  Ref.delimited rest = true ->
                  Ref.readProps fuel
                    (Ref.commas (List.map (fun kv => Ref.quote (fst kv) ++ [58] ++ Ref.stringify (snd kv)) props)
                     ++ 125 :: rest)
                  = Some (List.map (fun kv => (fst kv, Json.reread (snd kv))) props, rest)).
    { clear. induction props as [|[k v] props IHp]; intros A W N fuel rest C D; [done|].
      apply Forall_cons in A as [Av A]. cbn in W. apply andb_true_iff in W as [Wv W].
      apply andb_true_iff in Wv as [_ Wv].
      cbn in C, Av. destruct fuel as [|fuel]; [lia|].
      destruct props as [|kv' props].
      - cbn [List.map Ref.commas Ref.readProps fst snd]. unfold Ref.quote.
        rewrite <- !app_assoc. cbn [app Ref.eat N.eqb Pos.eqb mbind option_bind].
        rewrite unquote_quoted. cbn [mbind option_bind Ref.eat N.eqb Pos.eqb].
        rewrite Av by (done || cbn in *; lia). reflexivity.
      - cbn [List.map]. rewrite commas_cons. cbn [fst snd]. unfold Ref.quote at 1.
        rewrite <- !app_assoc. cbn [app Ref.readProps Ref.eat N.eqb Pos.eqb mbind option_bind].
        rewrite unquote_quoted. cbn [mbind option_bind Ref.eat N.eqb Pos.eqb].
        rewrite Av by (done || cbn in *; lia). cbn [mbind option_bind N.eqb Pos.eqb].
        change ((Ref.quote (fst kv') ++ [58] ++ Ref.stringify (snd kv'))
                :: List.map (fun kv => Ref.quote (fst kv) ++ [58] ++ Ref.stringify (snd kv)) props)
          with (List.map (fun kv => Ref.quote (fst kv) ++ [58] ++ Ref.stringify (snd kv)) (kv' :: props)).
        rewrite IHp by (done || cbn in *; lia). reflexivity. }
    replace (Ref.eat [125] _) with (@None text).
    2:{ symmetry. destruct props; cbn [List.map Ref.commas]; reflexivity. }
    rewrite R by (done || lia). reflexivity.
Qed.

Lemma stringify_truthy v : Text.truthy (Ref.JSON_stringify v) = true.
Proof.
  unfold Ref.JSON_stringify. now destruct (stringify_head v) as (c & r & -> & _).
Qed.

Lemma commas_length parts :
  (list_sum (List.map (fun p => S (length p)) parts) <= S (length (Ref.commas parts)))%nat.
Proof.
  induction parts as [|p [|q parts] IH].
  - cbn. lia.
  - cbn. lia.
  - rewrite commas_cons, length_app. cbn [length].
    change (list_sum (List.map (fun p => S (length p)) (p :: q :: parts)))
      with (S (length p) + list_sum (List.map (fun p => S (length p)) (q :: parts)))%nat.
    lia.
Qed.

Lemma cost_length v : (Ref.cost v <= length (Ref.stringify v))%nat.
Proof.
  induction v as [|b|x|s|items IH|props IH] using json_nested_ind.
  - cbn. lia.
  - destruct b; cbn; lia.
  - destruct (stringify_head (JNum x)) as (c' & r' & -> & _). cbn. lia.
  - cbn. lia.
  - cbn [Ref.cost Ref.stringify]. rewrite !length_app. cbn [length].
    pose proof (commas_length (List.map Ref.stringify items)) as L.
    enough (list_sum (List.map (fun x => S (Ref.cost x)) items)
            <= list_sum (List.map (fun p => S (length p)) (List.map Ref.stringify items)))%nat by lia.
    clear L. induction IH as [|v items Hv _ IHi]; cbn in *; [lia|].
    unfold list_sum in *. lia.
  - cbn [Ref.cost Ref.stringify]. rewrite !length_app. cbn [length].
    pose proof (commas_length (List.map (fun kv => Ref.quote (fst kv) ++ [58] ++ Ref.stringify (snd kv)) props)) as L.
    enough (list_sum (List.map (fun kv => S (Ref.cost (snd kv))) props)
            <= list_sum (List.map (fun p => S (length p))
                 (List.map (fun kv => Ref.quote (fst kv) ++ [58%N] ++ Ref.stringify (snd kv)) props)))%nat by lia.
    clear L. induction IH as [|[k v] props Hv _ IHi]; [cbn; lia|].
    cbn [List.map fst snd] in *. unfold list_sum in *. cbn [foldr].
    rewrite !length_app. lia.
Qed.

Lemma parse_stringify v :
  Json.wf v = true -> Ref.JSON_parse (Ref.JSON_stringify v) = Value (Json.reread v).
Proof.
  intros W. unfold Ref.JSON_parse, Ref.JSON_stringify.
  pose proof (readValue_stringify v W (S (length (Ref.stringify v))) []) as R.
  rewrite app_nil_r in R. rewrite R; [reflexivity| |reflexivity].
  pose proof (cost_length v). lia.
Qed.

End RefFacts.

(** ** Concrete requests, served with the reference engine *)

Abbreviation refNormalizeId := (normalizeId Ref.unicodeLower).
Abbreviation refGetSync := (getSync Ref.unicodeLower Ref.JSON_parse).
Abbreviation refPostSync := (postSync Ref.unicodeLower Ref.JSON_stringify).
Abbreviation refHandle := (handle Ref.unicodeLower Ref.JSON_stringify Ref.JSON_parse).
Abbreviation refServe := (serve Ref.unicodeLower Ref.JSON_stringify Ref.JSON_parse).
Abbreviation refReachable := (reachable Ref.unicodeLower Ref.JSON_stringify Ref.JSON_parse).

Module Sample.

Definition alice : text := Text.lit "alice".

(** [{"day1":"louvre"}] and [{"day1":"tower"}]. *)
Definition louvre : json := JObj [(Text.lit "day1", JStr (Text.lit "louvre"))].
Definition tower : json := JObj [(Text.lit "day1", JStr (Text.lit "tower"))].

(** [{"paris":{"day1":"louvre"}}], the body of the example request. *)
Definition parisOnly : json := JObj [(Text.lit "paris", louvre)].

Definition londonOnly : json := JObj [(Text.lit "london", tower)].

(** The same body with a timestamp of the client's added. *)
Definition parisStamped : json :=
  JObj [(Text.lit "paris", louvre);
        (Text.lit "updatedAt", JStr (Text.lit "1999-12-31T23:59:59.000Z"))].

(** [{"paris":false,"london":{"day1":"tower"}}]. *)
Definition parisFalse : json :=
  JObj [(Text.lit "paris", JBool false); (Text.lit "london", tower)].

(** 2026-11-02T12:00:00.123Z. *)
Definition noon : Z := 1793620800123.

(** A table with one row, both columns filled. *)
Definition both : gmap text row :=
  {[ alice := Row (Some (Ref.JSON_stringify louvre)) (Some (Ref.JSON_stringify tower))
                  (Some (Clock.toISOString 0)) ]}.

End Sample.

Example toISOString_noon :
  Clock.toISOString Sample.noon = Text.lit "2026-11-02T12:00:00.123Z".
Proof. reflexivity. Qed.

Example instant_noon :
  Clock.instant (Text.lit "2026-11-02T12:00:00.123Z") = Some Sample.noon.
Proof. reflexivity. Qed.

Example kelvin_sign_is_k :
  refNormalizeId [8490%N; 65%N; 304%N; 66%N] = Text.lit "kaib".
Proof. reflexivity. Qed.

(** The example of the specification: the write of [{"paris":{"day1":"louvre"}}]
    for [alice], then the read. *)
Example alice_example :
  response (refGetSync None
              (store (refPostSync None Sample.noon ∅ Sample.alice Sample.parisOnly))
              Sample.alice)
  = Reply 200 (SyncData (Some (UserData Sample.louvre JNull
      (Some (Text.lit "2026-11-02T12:00:00.123Z"))))).
Proof. vm_compute. reflexivity. Qed.

(** Two writes for [alice], spelled differently, and one for [bob_7]: two
    users. *)
Example two_users :
  response (getStats None
    (refServe ∅
       [Arrival (PostSync Sample.alice Sample.parisOnly) None Sample.noon;
        Arrival (PostSync (Text.lit "ALICE!") Sample.londonOnly) None (Sample.noon + 1);
        Arrival (GetSync Sample.alice) None (Sample.noon + 2);
        Arrival (PostSync (Text.lit "bob_7") Sample.parisOnly) None (Sample.noon + 3);
        Arrival (PostSync (Text.lit "carol") Sample.parisOnly)
                (Some (Text.lit "SQLITE_BUSY: database is locked")) (Sample.noon + 4)]))
  = Reply 200 (Stats 2).
Proof. vm_compute. reflexivity. Qed.

(** The second write for [alice] left no [paris]. *)
Example second_write_wins :
  response (refGetSync None
    (refServe ∅
       [Arrival (PostSync Sample.alice Sample.parisOnly) None Sample.noon;
        Arrival (PostSync (Text.lit "ALICE!") Sample.londonOnly) None (Sample.noon + 1)])
    Sample.alice)
  = Reply 200 (SyncData (Some (UserData JNull Sample.tower
      (Some (Text.lit "2026-11-02T12:00:00.124Z"))))).
Proof. vm_compute. reflexivity. Qed.

(** A column that does not hold JSON is answered 500 and logged. *)
Example broken_column :
  refGetSync None {[ Sample.alice := Row (Some (Text.lit "{day1")) None None ]} Sample.alice
  = Outcome (Reply 500 (ErrorBody (Text.lit "Database error")))
      {[ Sample.alice := Row (Some (Text.lit "{day1")) None None ]}
      [ConsoleError (Text.lit "Database read error:")
         (SyntaxError (Text.lit "Unexpected token in JSON"))].
Proof. vm_compute. reflexivity. Qed.

(** [{"paris":false,"london":{"day1":"tower"}}] written, then read. *)
Example false_reads_as_null :
  response (refGetSync None
              (store (refPostSync None Sample.noon ∅ Sample.alice Sample.parisFalse))
              Sample.alice)
  = Reply 200 (SyncData (Some (UserData JNull Sample.tower
      (Some (Text.lit "2026-11-02T12:00:00.123Z"))))).
Proof. vm_compute. reflexivity. Qed.

(** C1, as stated, fails: [paris: false] is stored as [NULL] and read back as
    [null], not as [false]. *)
Lemma falsy_value_not_read_back :
  ~ readsBackSubmitted Ref.unicodeLower Ref.JSON_stringify Ref.JSON_parse
      ∅ Sample.alice Sample.parisFalse Sample.noon.
Proof. intros [stamp H]. vm_compute in H. discriminate H. Qed.

(** [write_then_read] for the example request. *)
Lemma write_then_read_witness :
  invalidId (refNormalizeId Sample.alice) = false
  /\ Json.wf Sample.parisOnly = true
  /\ Clock.isTimeValue Sample.noon
  /\ Sample.noon - 5 <= Sample.noon
  /\ response (refGetSync None
                 (store (refPostSync None Sample.noon ∅ Sample.alice Sample.parisOnly))
                 Sample.alice)
     = Reply 200 (SyncData (Some (UserData
         (readBack (Json.getProp Sample.parisOnly (Text.lit "paris")))
         (readBack (Json.getProp Sample.parisOnly (Text.lit "london")))
         (Some (Clock.toISOString Sample.noon)))))
  /\ Clock.instant (Clock.toISOString Sample.noon) = Some Sample.noon
  /\ (forall t, Clock.instant (Clock.toISOString Sample.noon) = Some t ->
                Sample.noon - 5 <= t)
  /\ (forall v, Json.truthy v = true -> Json.reread v = v -> readBack (Some v) = v)
  /\ readBack None = JNull.
Proof.
  assert (V : Clock.isTimeValue Sample.noon) by (vm_compute; split; discriminate).
  assert (T : Sample.noon - 5 <= Sample.noon) by (vm_compute; discriminate).
  split; [reflexivity|]. split; [reflexivity|]. split; [exact V|]. split; [exact T|].
  exact (write_then_read Ref.unicodeLower Ref.JSON_stringify Ref.JSON_parse
           (fun v _ => RefFacts.stringify_truthy v) RefFacts.parse_stringify
           ∅ Sample.alice Sample.parisOnly (Sample.noon - 5) Sample.noon
           eq_refl eq_refl V T).
Defined.

(** [invalid_id_rejected] for ["A!"], which normalises to ["a"]. *)
Lemma invalid_id_rejected_witness :
  (length (refNormalizeId (Text.lit "A!")) < 3
   \/ 30 < length (refNormalizeId (Text.lit "A!")))%nat
  /\ forall fault now db reqBody,
       let refused := Outcome (Reply 400 (ErrorBody (Text.lit "Invalid user ID"))) db [] in
       refGetSync fault db (Text.lit "A!") = refused
       /\ refPostSync fault now db (Text.lit "A!") reqBody = refused
       /\ forall fault' rawId',
            refGetSync fault' (store (refGetSync fault db (Text.lit "A!"))) rawId'
            = refGetSync fault' db rawId'
            /\ refGetSync fault' (store (refPostSync fault now db (Text.lit "A!") reqBody)) rawId'
               = refGetSync fault' db rawId'.
Proof.
  split; [left; vm_compute; lia|].
  apply (invalid_id_rejected Ref.unicodeLower Ref.JSON_stringify Ref.JSON_parse (Text.lit "A!")).
  left. vm_compute. lia.
Defined.

(** [omitted_field_cleared] for a body with [london] only, on a table that
    holds both columns for [alice]. *)
Lemma omitted_field_cleared_witness :
  invalidId (refNormalizeId Sample.alice) = false
  /\ Json.wf Sample.londonOnly = true
  /\ let db' := store (refPostSync None Sample.noon Sample.both Sample.alice Sample.londonOnly) in
     let stamp := Some (Clock.toISOString Sample.noon) in
     db' !! refNormalizeId Sample.alice
     = Some (Row (writeColumn Ref.JSON_stringify (Json.getProp Sample.londonOnly (Text.lit "paris")))
                 (writeColumn Ref.JSON_stringify (Json.getProp Sample.londonOnly (Text.lit "london")))
                 stamp)
     /\ (Json.getProp Sample.londonOnly (Text.lit "paris") = None ->
         paris_data <$> db' !! refNormalizeId Sample.alice = Some None
         /\ response (refGetSync None db' Sample.alice)
            = Reply 200 (SyncData (Some (UserData JNull
                (readBack (Json.getProp Sample.londonOnly (Text.lit "london"))) stamp))))
     /\ (Json.getProp Sample.londonOnly (Text.lit "london") = None ->
         london_data <$> db' !! refNormalizeId Sample.alice = Some None
         /\ response (refGetSync None db' Sample.alice)
            = Reply 200 (SyncData (Some (UserData
                (readBack (Json.getProp Sample.londonOnly (Text.lit "paris"))) JNull stamp)))).
Proof.
  split; [reflexivity|]. split; [reflexivity|].
  apply (omitted_field_cleared Ref.unicodeLower Ref.JSON_stringify Ref.JSON_parse
           (fun v _ => RefFacts.stringify_truthy v) RefFacts.parse_stringify
           Sample.both Sample.alice Sample.londonOnly Sample.noon); reflexivity.
Defined.

(** [get_absent_or_present] for [alice] on the table that holds her row:
    the read returns the two values her columns hold. *)
Lemma get_absent_or_present_witness :
  let r := Row (Some (Ref.JSON_stringify Sample.louvre))
               (Some (Ref.JSON_stringify Sample.tower))
               (Some (Clock.toISOString 0)) in
  invalidId (refNormalizeId Sample.alice) = false
  /\ Sample.both !! refNormalizeId Sample.alice = Some r
  /\ Ref.JSON_parse (Ref.JSON_stringify Sample.louvre) = Value Sample.louvre
  /\ Ref.JSON_parse (Ref.JSON_stringify Sample.tower) = Value Sample.tower
  /\ refGetSync None Sample.both Sample.alice
     = Outcome (Reply 200 (SyncData (Some (UserData Sample.louvre Sample.tower
                  (Some (Clock.toISOString 0)))))) Sample.both [].
Proof.
  assert (L : Sample.both !! refNormalizeId Sample.alice
              = Some (Row (Some (Ref.JSON_stringify Sample.louvre))
                          (Some (Ref.JSON_stringify Sample.tower))
                          (Some (Clock.toISOString 0))))
    by (vm_compute; reflexivity).
  assert (P : Ref.JSON_parse (Ref.JSON_stringify Sample.louvre) = Value Sample.louvre)
    by (vm_compute; reflexivity).
  assert (Q : Ref.JSON_parse (Ref.JSON_stringify Sample.tower) = Value Sample.tower)
    by (vm_compute; reflexivity).
  split; [reflexivity|]. split; [exact L|]. split; [exact P|]. split; [exact Q|].
  exact (proj1 (proj2
           (get_absent_or_present Ref.unicodeLower Ref.JSON_stringify Ref.JSON_parse
              (fun v _ => RefFacts.stringify_truthy v) RefFacts.parse_stringify
              Sample.both Sample.alice eq_refl))
           _ Sample.louvre Sample.tower L P Q).
Defined.

(** [timestamp_server_side] for the example body with and without a
    timestamp of the client's. *)
Lemma timestamp_server_side_witness :
  Json.getProp Sample.parisOnly (Text.lit "paris")
  = Json.getProp Sample.parisStamped (Text.lit "paris")
  /\ Json.getProp Sample.parisOnly (Text.lit "london")
     = Json.getProp Sample.parisStamped (Text.lit "london")
  /\ refPostSync None Sample.noon ∅ Sample.alice Sample.parisOnly
     = refPostSync None Sample.noon ∅ Sample.alice Sample.parisStamped
  /\ (status (response (refPostSync None Sample.noon ∅ Sample.alice Sample.parisOnly)) = 200%nat ->
      response (refPostSync None Sample.noon ∅ Sample.alice Sample.parisOnly)
      = Reply 200 (Saved (Clock.toISOString Sample.noon))
      /\ updated_at <$> (store (refPostSync None Sample.noon ∅ Sample.alice Sample.parisOnly)
                         !! refNormalizeId Sample.alice)
         = Some (Some (Clock.toISOString Sample.noon))).
Proof.
  split; [reflexivity|]. split; [reflexivity|].
  apply (timestamp_server_side Ref.unicodeLower Ref.JSON_stringify None Sample.noon
           ∅ Sample.alice Sample.parisOnly Sample.parisStamped); reflexivity.
Defined.

(** [write_all_or_nothing] for a write the driver refuses. *)
Lemma write_all_or_nothing_witness :
  invalidId (refNormalizeId Sample.alice) = false
  /\ let fault := Some (Text.lit "SQLITE_FULL: database or disk is full") in
     let done := refPostSync fault Sample.noon Sample.both Sample.alice Sample.londonOnly in
     (fault = None
      /\ response done = Reply 200 (Saved (Clock.toISOString Sample.noon))
      /\ store done
         = <[refNormalizeId Sample.alice :=
               Row (writeColumn Ref.JSON_stringify (Json.getProp Sample.londonOnly (Text.lit "paris")))
                   (writeColumn Ref.JSON_stringify (Json.getProp Sample.londonOnly (Text.lit "london")))
                   (Some (Clock.toISOString Sample.noon))]> Sample.both)
     \/ (fault <> None
         /\ status (response done) = 500%nat
         /\ store done = Sample.both).
Proof.
  split; [reflexivity|].
  apply (write_all_or_nothing Ref.unicodeLower Ref.JSON_stringify
           (Some (Text.lit "SQLITE_FULL: database or disk is full"))
           Sample.noon Sample.both Sample.alice Sample.londonOnly).
  reflexivity.
Defined.

(** [stored_columns_deserialise] for the table after the example write. *)
Lemma stored_columns_deserialise_witness :
  let db := refServe ∅ [Arrival (PostSync Sample.alice Sample.parisOnly) None Sample.noon] in
  refReachable db
  /\ (forall k r, db !! k = Some r ->
        rowSerialised Ref.JSON_stringify r
        /\ exists p l, readColumn Ref.JSON_parse (paris_data r) = Done p
                       /\ readColumn Ref.JSON_parse (london_data r) = Done l)
  /\ (forall a, wfArrival a = true -> refReachable (store (refHandle db a)))
  /\ (forall rawId,
        status (response (refGetSync None db rawId)) <> 500%nat
        /\ console (refGetSync None db rawId) = []).
Proof.
  assert (R : refReachable
                (refServe ∅ [Arrival (PostSync Sample.alice Sample.parisOnly) None Sample.noon])).
  { exists [Arrival (PostSync Sample.alice Sample.parisOnly) None Sample.noon].
    split; reflexivity. }
  split; [exact R|].
  exact (stored_columns_deserialise Ref.unicodeLower Ref.JSON_stringify Ref.JSON_parse
           (fun v _ => RefFacts.stringify_truthy v) RefFacts.parse_stringify _ R).
Defined.

(** ** Concrete requests for the properties of sequences and identifiers *)

Module Traffic.

(** The example write, as it arrives. *)
Definition firstWrite : arrival :=
  Arrival (PostSync Sample.alice Sample.parisOnly) None Sample.noon.

(** A later write for the same user, spelled differently. *)
Definition secondWrite : arrival :=
  Arrival (PostSync (Text.lit "ALICE!") Sample.londonOnly) None (Sample.noon + 1).

Definition bob : text := Text.lit "bob_7".

(** A table whose row for [alice] holds text that is not JSON. *)
Definition corrupt : gmap text row :=
  {[ Sample.alice := Row (Some (Text.lit "{day1")) None None ]}.

End Traffic.

(** [stored_keys_normalised] for the table after the example write. *)
Lemma stored_keys_normalised_witness :
  is_Some (refServe ∅ [Traffic.firstWrite] !! Sample.alice)
  /\ forallb Text.idChar Sample.alice = true
  /\ (3 <= length Sample.alice <= 30)%nat.
Proof.
  assert (H : is_Some (refServe ∅ [Traffic.firstWrite] !! Sample.alice))
    by (vm_compute; eauto).
  split; [exact H|].
  exact (stored_keys_normalised Ref.unicodeLower Ref.JSON_stringify Ref.JSON_parse
           [Traffic.firstWrite] Sample.alice H).
Defined.

(** [stored_rows_timestamped] for the row of the example write. *)
Lemma stored_rows_timestamped_witness :
  let r := Row (Some (Ref.JSON_stringify Sample.louvre)) None
               (Some (Clock.toISOString Sample.noon)) in
  refServe ∅ [Traffic.firstWrite] !! Sample.alice = Some r
  /\ exists a rawId reqBody,
       In a [Traffic.firstWrite] /\ req a = PostSync rawId reqBody
       /\ refNormalizeId rawId = Sample.alice
       /\ updated_at r = Some (Clock.toISOString (clock a))
       /\ (Clock.isTimeValue (clock a) ->
           Clock.instant (Clock.toISOString (clock a)) = Some (clock a)).
Proof.
  assert (H : refServe ∅ [Traffic.firstWrite] !! Sample.alice
              = Some (Row (Some (Ref.JSON_stringify Sample.louvre)) None
                          (Some (Clock.toISOString Sample.noon))))
    by (vm_compute; reflexivity).
  split; [exact H|].
  exact (stored_rows_timestamped Ref.unicodeLower Ref.JSON_stringify Ref.JSON_parse
           [Traffic.firstWrite] Sample.alice _ H).
Defined.

(** [other_users_untouched] for a write of [bob_7] and a read of [alice]. *)
Lemma other_users_untouched_witness :
  refNormalizeId Sample.alice <> refNormalizeId Traffic.bob
  /\ response (refGetSync None
                 (store (refPostSync None Sample.noon Sample.both Traffic.bob Sample.parisOnly))
                 Sample.alice)
     = response (refGetSync None Sample.both Sample.alice)
  /\ console (refGetSync None
                (store (refPostSync None Sample.noon Sample.both Traffic.bob Sample.parisOnly))
                Sample.alice)
     = console (refGetSync None Sample.both Sample.alice).
Proof.
  assert (N : refNormalizeId Sample.alice <> refNormalizeId Traffic.bob)
    by (intros E; vm_compute in E; discriminate E).
  split; [exact N|].
  exact (other_users_untouched Ref.unicodeLower Ref.JSON_stringify Ref.JSON_parse
           None None Sample.noon Sample.both Traffic.bob Sample.alice Sample.parisOnly N).
Defined.

(** [writes_to_different_users_commute] for [alice] and [bob_7]. *)
Lemma writes_to_different_users_commute_witness :
  refNormalizeId Sample.alice <> refNormalizeId Traffic.bob
  /\ store (refPostSync None (Sample.noon + 1)
              (store (refPostSync None Sample.noon ∅ Sample.alice Sample.parisOnly))
              Traffic.bob Sample.londonOnly)
     = store (refPostSync None Sample.noon
                (store (refPostSync None (Sample.noon + 1) ∅ Traffic.bob Sample.londonOnly))
                Sample.alice Sample.parisOnly)
  /\ response (refPostSync None Sample.noon
                 (store (refPostSync None (Sample.noon + 1) ∅ Traffic.bob Sample.londonOnly))
                 Sample.alice Sample.parisOnly)
     = response (refPostSync None Sample.noon ∅ Sample.alice Sample.parisOnly)
  /\ response (refPostSync None (Sample.noon + 1)
                 (store (refPostSync None Sample.noon ∅ Sample.alice Sample.parisOnly))
                 Traffic.bob Sample.londonOnly)
     = response (refPostSync None (Sample.noon + 1) ∅ Traffic.bob Sample.londonOnly).
Proof.
  assert (N : refNormalizeId Sample.alice <> refNormalizeId Traffic.bob)
    by (intros E; vm_compute in E; discriminate E).
  split; [exact N|].
  exact (writes_to_different_users_commute Ref.unicodeLower Ref.JSON_stringify
           None None Sample.noon (Sample.noon + 1) ∅ Sample.alice Traffic.bob
           Sample.parisOnly Sample.londonOnly N).
Defined.

(** [ascii_identifier_normal_form] for ["Alice_01!"]. *)
Lemma ascii_identifier_normal_form_witness :
  ascii (Text.lit "Alice_01!") = true
  /\ refNormalizeId (Text.lit "Alice_01!")
     = Text.strip (List.map Text.asciiLower (Text.lit "Alice_01!"))
  /\ (length (refNormalizeId (Text.lit "Alice_01!")) <= length (Text.lit "Alice_01!"))%nat.
Proof.
  split; [reflexivity|].
  exact (ascii_identifier_normal_form Ref.unicodeLower (Text.lit "Alice_01!") eq_refl).
Defined.

(** [spelling_irrelevant] for ["ALICE!"] and ["alice"]. *)
Lemma spelling_irrelevant_witness :
  ascii (Text.lit "ALICE!") = true
  /\ ascii Sample.alice = true
  /\ Text.strip (List.map Text.asciiLower (Text.lit "ALICE!"))
     = Text.strip (List.map Text.asciiLower Sample.alice)
  /\ forall (fault : option text) (now : Z) (db : gmap text row) (reqBody : json),
       refGetSync fault db (Text.lit "ALICE!") = refGetSync fault db Sample.alice
       /\ refPostSync fault now db (Text.lit "ALICE!") reqBody
          = refPostSync fault now db Sample.alice reqBody.
Proof.
  split; [reflexivity|]. split; [reflexivity|]. split; [reflexivity|].
  exact (spelling_irrelevant Ref.unicodeLower Ref.JSON_stringify Ref.JSON_parse
           (Text.lit "ALICE!") Sample.alice eq_refl eq_refl eq_refl).
Defined.

(** [corrupt_column_fails_read] for the table whose [paris_data] is not
    JSON. *)
Lemma corrupt_column_fails_read_witness :
  let r := Row (Some (Text.lit "{day1")) None None in
  let e := SyntaxError (Text.lit "Unexpected token in JSON") in
  invalidId (refNormalizeId Sample.alice) = false
  /\ Traffic.corrupt !! refNormalizeId Sample.alice = Some r
  /\ (readColumn Ref.JSON_parse (paris_data r) = Raised e
      \/ (exists p, readColumn Ref.JSON_parse (paris_data r) = Done p)
         /\ readColumn Ref.JSON_parse (london_data r) = Raised e)
  /\ refGetSync None Traffic.corrupt Sample.alice
     = Outcome (Reply 500 (ErrorBody (Text.lit "Database error"))) Traffic.corrupt
         [ConsoleError (Text.lit "Database read error:") e].
Proof.
  assert (L : Traffic.corrupt !! refNormalizeId Sample.alice
              = Some (Row (Some (Text.lit "{day1")) None None))
    by (vm_compute; reflexivity).
  assert (P : readColumn Ref.JSON_parse (Some (Text.lit "{day1"))
              = Raised (SyntaxError (Text.lit "Unexpected token in JSON")))
    by (vm_compute; reflexivity).
  split; [reflexivity|]. split; [exact L|]. split; [left; exact P|].
  exact (corrupt_column_fails_read Ref.unicodeLower Ref.JSON_parse
           Traffic.corrupt Sample.alice _ _ eq_refl L (or_introl P)).
Defined.

(** [timestamps_tell_writes_apart] for two writes at the same clock
    reading. *)
Lemma timestamps_tell_writes_apart_witness :
  invalidId (refNormalizeId Sample.alice) = false
  /\ invalidId (refNormalizeId Traffic.bob) = false
  /\ Clock.isTimeValue Sample.noon
  /\ response (refPostSync None Sample.noon ∅ Sample.alice Sample.parisOnly)
     = response (refPostSync None Sample.noon Sample.both Traffic.bob Sample.londonOnly)
  /\ Sample.noon = Sample.noon.
Proof.
  assert (V : Clock.isTimeValue Sample.noon) by (vm_compute; split; discriminate).
  assert (E : response (refPostSync None Sample.noon ∅ Sample.alice Sample.parisOnly)
              = response (refPostSync None Sample.noon Sample.both Traffic.bob Sample.londonOnly))
    by (vm_compute; reflexivity).
  split; [reflexivity|]. split; [reflexivity|]. split; [exact V|]. split; [exact E|].
  exact (timestamps_tell_writes_apart Ref.unicodeLower Ref.JSON_stringify Ref.JSON_parse
           Sample.noon Sample.noon ∅ Sample.both Sample.alice Traffic.bob
           Sample.parisOnly Sample.londonOnly eq_refl eq_refl V V E).
Defined.

(** [read_returns_last_write] for two writes of [alice] and a read. *)
Lemma read_returns_last_write_witness :
  invalidId (refNormalizeId Sample.alice) = false
  /\ forallb wfArrival [Traffic.firstWrite; Traffic.secondWrite] = true
  /\ match lastWrite Ref.unicodeLower Ref.JSON_stringify (refNormalizeId Sample.alice)
             [Traffic.firstWrite; Traffic.secondWrite] with
     | None =>
         response (refGetSync None (refServe ∅ [Traffic.firstWrite; Traffic.secondWrite])
                     Sample.alice)
         = Reply 200 (SyncData None)
     | Some r =>
         exists a rawId' reqBody,
           In a [Traffic.firstWrite; Traffic.secondWrite]
           /\ req a = PostSync rawId' reqBody
           /\ refNormalizeId rawId' = refNormalizeId Sample.alice
           /\ acceptedWrite Ref.unicodeLower Ref.JSON_stringify a
              = Some (refNormalizeId Sample.alice, r)
           /\ response (refGetSync None (refServe ∅ [Traffic.firstWrite; Traffic.secondWrite])
                          Sample.alice)
              = Reply 200 (SyncData (Some (UserData
                  (readBack (Json.getProp reqBody (Text.lit "paris")))
                  (readBack (Json.getProp reqBody (Text.lit "london")))
                  (Some (Clock.toISOString (clock a))))))
     end.
Proof.
  split; [reflexivity|]. split; [reflexivity|].
  exact (read_returns_last_write Ref.unicodeLower Ref.JSON_stringify Ref.JSON_parse
           (fun v _ => RefFacts.stringify_truthy v) RefFacts.parse_stringify
           [Traffic.firstWrite; Traffic.secondWrite] Sample.alice eq_refl eq_refl).
Defined.

(** [falsy_property_is_omitted] for [paris: 0] beside a [london]. *)
Lemma falsy_property_is_omitted_witness :
  let v := JNum (S754_zero false) in
  let other := [(Text.lit "london", Sample.tower)] in
  Json.truthy v = false
  /\ (Json.getProp (JObj other) (Text.lit "paris") = None ->
      forall (fault : option text) (now : Z) (db : gmap text row) (rawId : text),
        refPostSync fault now db rawId (JObj ((Text.lit "paris", v) :: other))
        = refPostSync fault now db rawId (JObj other))
  /\ (Json.getProp (JObj other) (Text.lit "london") = None ->
      forall (fault : option text) (now : Z) (db : gmap text row) (rawId : text),
        refPostSync fault now db rawId (JObj ((Text.lit "london", v) :: other))
        = refPostSync fault now db rawId (JObj other))
  /\ (v = JNull \/ v = JBool false \/ (exists s, v = JNum (S754_zero s))
      \/ v = JNum S754_nan \/ v = JStr []).
Proof.
  split; [reflexivity|].
  exact (falsy_property_is_omitted Ref.unicodeLower Ref.JSON_stringify
           (JNum (S754_zero false)) [(Text.lit "london", Sample.tower)] eq_refl).
Defined.
